(** * VyomNetra space-chat backend: dispatch and fallback core

    A shallow embedding of [main.py]: the [/api/space-chat] handler
    [space_chat], its keyword dispatch, the three live fetchers with their
    static fallbacks, the random and keyed fact pools and the Gemini adapter.

    Python values are modelled as follows.
    - [str] is [string], the UTF-8 bytes of the text; the substring test
      [sub in s] is [str_in sub s] (on well-formed UTF-8 a byte-wise search
      finds exactly the code-point-wise occurrences).
    - a decoded JSON document is a [json] tree; a [dict] is an association
      list in insertion order, read from the front.
    - a raised exception is an [exn]; a computation that may raise and that
      performs network calls, random draws and prints is an [M A].
    - what the interpreter and the outside world supply ([str.lower] beyond
      ASCII, [repr] of floats and containers, the HTTP peers, the clock, the
      random generator, the Gemini model) is a parameter: [PyRuntime] and
      [World]. *)

From Stdlib Require Import String Ascii List ZArith Bool Lia DecimalString.
From Stdlib Require Import Floats.SpecFloat.
Import ListNotations.
Local Open Scope string_scope.
Local Open Scope list_scope.

(** ** Strings *)

(** Python's [sub in s] on strings. *)
Fixpoint str_in (sub s : string) : bool :=
  String.prefix sub s ||
  match s with
  | EmptyString => false
  | String _ t => str_in sub t
  end.

(** [any(k in s for k in keys)]. *)
Definition any_in (keys : list string) (s : string) : bool :=
  existsb (fun k => str_in k s) keys.

Definition lower_char (c : ascii) : ascii :=
  let n := nat_of_ascii c in
  if (65 <=? n)%nat && (n <=? 90)%nat then ascii_of_nat (n + 32) else c.

Fixpoint lower_ascii (s : string) : string :=
  match s with
  | EmptyString => EmptyString
  | String c t => String (lower_char c) (lower_ascii t)
  end.

Fixpoint all_ascii (s : string) : bool :=
  match s with
  | EmptyString => true
  | String c t => (nat_of_ascii c <? 128)%nat && all_ascii t
  end.

Definition nl : string := String (ascii_of_nat 10) EmptyString.

(** ** JSON values as decoded by [response.json()] / [request.get_json()] *)

#[local] Set Warnings "-register-all".

Inductive json : Type :=
| JNull
| JBool (b : bool)
| JInt (z : Z)
| JFloat (f : spec_float)
| JString (s : string)
| JList (l : list json)
| JDict (d : list (string * json)).

Fixpoint dict_get (k : string) (d : list (string * json)) : option json :=
  match d with
  | [] => None
  | (k', v) :: rest => if String.eqb k k' then Some v else dict_get k rest
  end.

Definition type_name (v : json) : string :=
  match v with
  | JNull => "NoneType"
  | JBool _ => "bool"
  | JInt _ => "int"
  | JFloat _ => "float"
  | JString _ => "str"
  | JList _ => "list"
  | JDict _ => "dict"
  end.

(** Truth value of a JSON-decoded object ([if x:], [x or y]). *)
Definition truthy (v : json) : bool :=
  match v with
  | JNull => false
  | JBool b => b
  | JInt z => negb (Z.eqb z 0)
  | JFloat f =>
      match f with
      | S754_zero _ => false
      | _ => true
      end
  | JString s => negb (String.eqb s "")
  | JList l => match l with [] => false | _ => true end
  | JDict d => match d with [] => false | _ => true end
  end.

(** ** The interpreter's part *)

(** What the Python runtime contributes and the program does not define:
    [str.lower] (full Unicode; on ASCII text it is [lower_ascii]), [repr]
    of floats, lists and dicts, and fixed-point formatting of a number with
    one decimal ([None]: the conversion raises). *)
Class PyRuntime : Type := {
  str_lower : string -> string;
  str_lower_ascii : forall s, all_ascii s = true -> str_lower s = lower_ascii s;
  repr : json -> string;
  fixed1 : json -> option string
}.

(** ** Exceptions and effects *)

Record exn : Type := Exn { exn_type : string; exn_str : string }.

Inductive outcome (A : Type) : Type :=
| Ret (a : A)
| Raise (e : exn).
Arguments Ret {A} a.
Arguments Raise {A} e.

(** What a request leaves behind: the URLs fetched and the prompts sent
    (latest first), the number of random draws taken, the lines printed. *)
Record Effects : Type := mkEffects {
  http_calls : list string;
  model_calls : list string;
  draws : nat;
  printed : list string
}.

Definition M (A : Type) : Type := Effects -> outcome A * Effects.

Definition ret {A} (a : A) : M A := fun s => (Ret a, s).

Definition raise {A} (e : exn) : M A := fun s => (Raise e, s).

Definition bind {A B} (c : M A) (k : A -> M B) : M B :=
  fun s =>
    match c s with
    | (Ret a, s') => k a s'
    | (Raise e, s') => (Raise e, s')
    end.

(** [try: c  except ... as e: h e]; the effects of [c] up to the raise
    are kept. *)
Definition try_except {A} (c : M A) (h : exn -> M A) : M A :=
  fun s =>
    match c s with
    | (Ret a, s') => (Ret a, s')
    | (Raise e, s') => h e s'
    end.

Definition lift {A} (o : outcome A) : M A := fun s => (o, s).

Declare Scope py_scope.
Delimit Scope py_scope with py.
Notation "x <- c ;; k" := (bind c (fun x => k))
  (at level 61, c at next level, right associativity) : py_scope.
Notation "c ;;; k" := (bind c (fun _ => k))
  (at level 61, right associativity) : py_scope.
Local Open Scope py_scope.

(** ** Operations on JSON-decoded objects *)

(** [v.get(k, default)]: only a [dict] has [get]. *)
Definition py_get (v : json) (k : string) (default : json) : M json :=
  match v with
  | JDict d =>
      match dict_get k d with
      | Some x => ret x
      | None => ret default
      end
  | _ => raise (Exn "AttributeError"
                 ("'" ++ type_name v ++ "' object has no attribute 'get'"))
  end.

(** [v.lower()]: only a [str] has [lower]. *)
Definition py_lower {py : PyRuntime} (v : json) : M string :=
  match v with
  | JString s => ret (str_lower s)
  | _ => raise (Exn "AttributeError"
                 ("'" ++ type_name v ++ "' object has no attribute 'lower'"))
  end.

Definition float_zero : spec_float := S754_zero false.

(** [v > 0]. *)
Definition py_gt0 (v : json) : M bool :=
  match v with
  | JBool b => ret b
  | JInt z => ret (0 <? z)%Z
  | JFloat f => ret (SFltb float_zero f)
  | _ => raise (Exn "TypeError"
                 ("'>' not supported between instances of '" ++ type_name v
                  ++ "' and 'int'"))
  end.

(** The continuation bytes (10xxxxxx) at the front of [s]. *)
Fixpoint continuation_bytes (s : string) : string :=
  match s with
  | EmptyString => EmptyString
  | String c t =>
      if (128 <=? nat_of_ascii c)%nat && (nat_of_ascii c <? 192)%nat
      then String c (continuation_bytes t)
      else EmptyString
  end.

(** [v[0]]; on a [str], its first character. *)
Definition py_item0 (v : json) : M json :=
  match v with
  | JList (x :: _) => ret x
  | JList [] => raise (Exn "IndexError" "list index out of range")
  | JString (String c t) => ret (JString (String c (continuation_bytes t)))
  | JString EmptyString => raise (Exn "IndexError" "string index out of range")
  | JDict _ => raise (Exn "KeyError" "0")
  | _ => raise (Exn "TypeError"
                 ("'" ++ type_name v ++ "' object is not subscriptable"))
  end.

Definition str_of_Z (z : Z) : string := NilZero.string_of_int (Z.to_int z).

(** [f"{v}"], that is [str(v)]. *)
Definition fstr {py : PyRuntime} (v : json) : string :=
  match v with
  | JString s => s
  | JInt z => str_of_Z z
  | JBool true => "True"
  | JBool false => "False"
  | JNull => "None"
  | _ => repr v
  end.

(** [f"{v:.1f}"]: numbers only. *)
Definition fmt_1f {py : PyRuntime} (v : json) : M string :=
  match v with
  | JBool _ | JInt _ | JFloat _ =>
      match fixed1 v with
      | Some s => ret s
      | None => raise (Exn "OverflowError" "int too large to convert to float")
      end
  | JString _ => raise (Exn "ValueError"
                   "Unknown format code 'f' for object of type 'str'")
  | _ => raise (Exn "TypeError"
           ("unsupported format string passed to " ++ type_name v
            ++ ".__format__"))
  end.

(** ** The outside world of one request *)

Inductive http_result : Type :=
| ConnectionError (e : exn)
| HttpResponse (status_code : Z) (body : outcome json).

(** [http url]: what [requests.get(url, timeout=10)] meets, a transport
    failure or a response with its status and the result of [.json()];
    [model]: the module-level [model], [None] without [GOOGLE_API_KEY], else
    the result of [generate_content(prompt).text]; [random k]: the raw value
    of the [k]-th draw; [today], [now_iso]: the clock as formatted. *)
Record World : Type := {
  today : string;
  now_iso : string;
  http : string -> http_result;
  random : nat -> nat;
  model : option (string -> outcome string)
}.

(** ** The static fact pools, verbatim *)

(** [apod_facts] of [get_fallback_apod_info]. *)
Definition apod_facts : list string :=
  [ "🌟 **NASA's APOD Program**: Every day since 1995, NASA has featured a different image or photograph of our fascinating universe, along with a brief explanation written by a professional astronomer!";
    "📸 **Did you know?** NASA's Astronomy Picture of the Day has featured over 10,000 stunning images of space, from distant galaxies to planets in our solar system!";
    "🔭 **APOD Archive**: The NASA APOD archive contains decades of the most beautiful space images ever captured, each with detailed explanations from astronomers!" ].

(** [neo_facts] of [get_fallback_neo_info]. *)
Definition neo_facts : list string :=
  [ "🪨 **NASA NEO Program**: NASA tracks over 90% of near-Earth asteroids larger than 1 km. None of the known objects pose a threat to Earth for the next 100+ years!";
    "🌌 **Asteroid Facts**: There are currently over 28,000 known near-Earth asteroids. NASA discovers about 3,000 new ones each year using ground and space-based telescopes!";
    "🛡️ **Planetary Defense**: NASA's DART mission successfully changed an asteroid's orbit in 2022, proving we can defend Earth if needed!" ].

(** [mars_facts] of [get_mars_rover_data]. *)
Definition mars_facts : list string :=
  [ "🔴 **Mars Rover Update**: NASA's Perseverance rover is currently exploring Jezero Crater, searching for signs of ancient microbial life and collecting samples for future return to Earth!";
    "🤖 **Rover Fleet**: NASA has successfully operated 5 rovers on Mars: Sojourner, Spirit, Opportunity, Curiosity, and Perseverance. Ingenuity helicopter made the first powered flight on another planet!";
    "🧪 **Mars Discovery**: NASA's rovers have confirmed that Mars once had flowing water, a thicker atmosphere, and conditions that could have supported life billions of years ago!";
    "📡 **Current Mission**: Perseverance has collected over 20 rock samples and Ingenuity has completed over 50 flights, far exceeding its planned 5 flights!" ].

(** [spacex_facts] of [get_spacex_launch_data]. *)
Definition spacex_facts : list string :=
  [ "🚀 **SpaceX Achievements**: SpaceX has revolutionized space travel with reusable rockets, reducing launch costs by 90% and making space more accessible than ever before!";
    "🌌 **Starship Program**: SpaceX is developing Starship, the most powerful rocket ever built, designed to carry humans to Mars and make life multiplanetary!";
    "🛰️ **Starlink Network**: SpaceX has deployed over 5,000 Starlink satellites, providing high-speed internet to remote areas worldwide and supporting global connectivity!" ].

(** [isro_facts] of [get_isro_info]. *)
Definition isro_facts : list string :=
  [ "🇮🇳 **ISRO Achievements**: India's Mars Orbiter Mission (Mangalyaan) made India the first country to reach Mars orbit in its first attempt, and the most cost-effective Mars mission ever at just $74 million!";
    "🚀 **Chandrayaan Program**: ISRO's Chandrayaan-3 successfully landed on the Moon's south pole in 2023, making India the 4th country to land on the Moon and the first to reach the lunar south pole!";
    "🛰️ **PSLV Success**: ISRO's Polar Satellite Launch Vehicle has achieved over 95% success rate and holds the record for launching 104 satellites in a single mission!";
    "🌍 **Global Impact**: ISRO provides crucial Earth observation data for disaster management, weather forecasting, and agricultural monitoring, serving not just India but the entire world!";
    "💫 **Future Missions**: ISRO is planning Gaganyaan (human spaceflight program), Shukrayaan-1 (Venus mission), and Chandrayaan-4 (Moon sample return mission)!" ].

(** [space_facts] of [get_random_space_fact]. *)
Definition space_facts : list string :=
  [ "🌌 **NASA Discovery**: The James Webb Space Telescope has detected galaxies that formed just 400 million years after the Big Bang, giving us unprecedented views of the early universe!";
    "⭐ **Stellar Facts**: According to NASA data, there are more stars in the observable universe than grains of sand on all Earth's beaches - approximately 10^24 stars!";
    "🌍 **Earth Science**: NASA Earth observing satellites have shown that Earth's ice sheets are losing mass at an accelerating rate, with critical implications for sea level rise!";
    "🪐 **Solar System**: NASA's Juno mission revealed that Jupiter has a 'fuzzy' core and produces auroras 1000 times brighter than Earth's!";
    "🚀 **ISS Updates**: The International Space Station travels at 17,500 mph, completing an orbit around Earth every 90 minutes. Astronauts see 16 sunrises and sunsets daily!";
    "🌟 **Exoplanet Hunt**: NASA has confirmed over 5,000 exoplanets so far, with many potentially habitable worlds in the 'Goldilocks zone' of their stars!" ].

(** [constellation_data], in insertion order. *)
Definition constellation_data : list (string * string) :=
  [ ("ursa major",
     "🐻 **Ursa Major (The Great Bear)**: One of the most recognizable constellations! It contains the famous Big Dipper asterism - 7 bright stars that form a ladle shape. Located in the northern sky, it's visible year-round from most northern latitudes. The Big Dipper's pointer stars (Merak and Dubhe) help locate Polaris, the North Star. In mythology, it represents a great bear being hunted across the sky.");
    ("big dipper",
     "✨ **The Big Dipper**: This isn't actually a constellation but an asterism (star pattern) within Ursa Major! The seven stars - Alkaid, Mizar, Alioth, Megrez, Phecda, Merak, and Dubhe - form the famous ladle shape. Interestingly, 5 of these stars are part of the Ursa Major Moving Group, traveling through space together.");
    ("ursa minor",
     "🐻 **Ursa Minor (The Little Bear)**: Home to Polaris, the North Star! This constellation contains the Little Dipper asterism. Polaris sits nearly at the north celestial pole, making it appear stationary while other stars rotate around it. Ancient navigators have used Polaris for centuries to find true north.");
    ("orion",
     "⭐ **Orion (The Hunter)**: Perhaps the most famous constellation! Visible worldwide, it features the iconic three stars of Orion's Belt (Alnitak, Alnilam, Mintaka). The red supergiant Betelgeuse marks his shoulder, while blue-white Rigel marks his foot. The Orion Nebula (M42) is a stellar nursery where new stars are born!");
    ("cassiopeia",
     "👑 **Cassiopeia (The Queen)**: This distinctive W-shaped constellation is easy to spot in the northern sky! It's circumpolar from most northern latitudes, meaning it never sets. In mythology, Cassiopeia was a vain queen. The constellation helps locate Polaris and is opposite the Big Dipper across the north celestial pole.");
    ("andromeda",
     "🌌 **Andromeda (The Princess)**: This constellation is famous for containing the Andromeda Galaxy (M31), our nearest major galactic neighbor! The galaxy is visible to the naked eye as a fuzzy patch. In mythology, Andromeda was a princess chained to a rock as sacrifice to a sea monster, but was saved by Perseus.");
    ("scorpio",
     "🦂 **Scorpio (The Scorpion)**: A spectacular zodiac constellation visible in summer! Its brightest star is Antares, a red supergiant 700 times the size of our Sun. The constellation looks like a scorpion with a curved tail and claws. In mythology, it's the scorpion that killed Orion the Hunter. Best viewed in July and August in the southern sky!");
    ("scorpius",
     "🦂 **Scorpio (The Scorpion)**: A spectacular zodiac constellation visible in summer! Its brightest star is Antares, a red supergiant 700 times the size of our Sun. The constellation looks like a scorpion with a curved tail and claws. In mythology, it's the scorpion that killed Orion the Hunter. Best viewed in July and August in the southern sky!");
    ("leo",
     "🦁 **Leo (The Lion)**: A bright zodiac constellation that really looks like a lion! Its brightest star Regulus marks the lion's heart. The 'Sickle' asterism forms the lion's mane and head. Leo is home to many galaxies and the annual Leonid meteor shower in November. Best seen in spring evenings!");
    ("virgo",
     "♍ **Virgo (The Virgin)**: The second-largest constellation in the sky! Its brightest star Spica is actually a binary star system. Virgo contains over 1,300 galaxies in the Virgo Cluster. In mythology, Virgo represents the goddess of harvest. Best visible in late spring and early summer!");
    ("gemini",
     "♊ **Gemini (The Twins)**: Features the bright stars Castor and Pollux, representing the twin brothers in Greek mythology! Gemini is a zodiac constellation best seen in winter. It's home to the beautiful open star cluster M35 and was the radiant point for the 2020 SpaceX mission naming!");
    ("cancer",
     "🦀 **Cancer (The Crab)**: The faintest zodiac constellation, but it contains the beautiful Beehive Cluster (M44)! In mythology, it's the crab that pinched Hercules during his battle with the Hydra. Cancer is best seen in late winter and early spring between Gemini and Leo!");
    ("aquarius",
     "🏺 **Aquarius (The Water Bearer)**: A large zodiac constellation known for meteor showers! Home to the radiant points of several meteor showers including the Aquarids. Its brightest star is Sadalsuud. Best viewed in autumn evenings in the southern sky!");
    ("pisces",
     "🐟 **Pisces (The Fishes)**: A large but faint zodiac constellation representing two fish tied together! Contains the vernal equinox point where the Sun crosses the celestial equator in spring. Best seen in autumn evenings, though it requires dark skies due to its faint stars!") ].

(** The general constellation text returned when no key matches. *)
Definition constellation_default : string :=
  "✨ **Constellations**: Star patterns that have guided humanity for thousands of years! There are 88 official constellations covering the entire sky. They help us navigate, tell time, and share stories across cultures. Popular northern constellations include Ursa Major (Big Dipper), Orion, and Cassiopeia. Which constellation interests you?".

(** [planet_data], in insertion order. *)
Definition planet_data : list (string * string) :=
  [ ("mercury",
     "☿️ **Mercury**: The closest planet to the Sun and the smallest in our solar system! It has extreme temperature swings from 800°F (430°C) during the day to -290°F (-180°C) at night. A year on Mercury (88 Earth days) is shorter than its day (176 Earth days)! NASA's MESSENGER mission mapped its entire surface.");
    ("venus",
     "♀️ **Venus**: Earth's 'evil twin' and the hottest planet in our solar system! Its thick atmosphere of carbon dioxide creates a runaway greenhouse effect, reaching 900°F (480°C) - hot enough to melt lead. It rotates backwards and a day is longer than a year there! Often called the 'Morning Star' or 'Evening Star.'");
    ("earth",
     "🌍 **Earth**: Our beautiful blue marble and the only known planet with life! 71% covered by oceans, with a perfect distance from the Sun for liquid water. Protected by a magnetic field and ozone layer, it's home to millions of species. NASA monitors Earth's climate and changes from space with dozens of satellites!");
    ("mars",
     "🔴 **Mars**: The Red Planet, our most explored neighbor! It gets its color from iron oxide (rust) on its surface. Mars has the largest volcano (Olympus Mons) and canyon (Valles Marineris) in the solar system. NASA's rovers have found evidence of ancient rivers and lakes - it may have harbored life billions of years ago!");
    ("jupiter",
     "🪐 **Jupiter**: The king of planets! This gas giant is so massive it could fit all other planets inside it. Jupiter acts as our cosmic protector, attracting asteroids and comets with its powerful gravity. It has over 80 moons, including the four Galilean moons discovered in 1610. The Great Red Spot is a storm larger than Earth!");
    ("saturn",
     "🪐 **Saturn**: The jewel of our solar system with its stunning rings! These rings are made of billions of ice and rock particles. Saturn is so light it would float in water! It has 146 known moons, including Titan with its thick atmosphere and liquid methane lakes. NASA's Cassini mission revealed incredible details about Saturn's system.");
    ("uranus",
     "🌀 **Uranus**: The tilted ice giant! It rotates on its side at a 98-degree angle, possibly due to an ancient collision. Composed mainly of water, methane, and ammonia ices, it appears blue-green due to methane in its atmosphere. It has faint rings and 27 known moons named after Shakespeare characters!");
    ("neptune",
     "💙 **Neptune**: The windiest planet with speeds up to 1,200 mph (2,000 km/h)! This deep blue ice giant is the farthest known planet from the Sun. It takes 165 Earth years to complete one orbit! Neptune has 16 known moons, with Triton being the largest and orbiting backwards, suggesting it's a captured Kuiper Belt object.") ].

(** The solar-system text returned when no planet key matches. *)
Definition planet_default : string :=
  "🪐 **Our Solar System**: Contains 8 amazing planets, each unique! From scorching Mercury to icy Neptune, they show incredible diversity. NASA missions have visited all planets, revolutionizing our understanding. Which planet would you like to explore?".

(** [stellar_data], in insertion order. *)
Definition stellar_data : list (string * string) :=
  [ ("star",
     "⭐ **Stars**: Massive nuclear fusion reactors that light up the universe! They fuse hydrogen into helium in their cores, releasing enormous energy. Stars are born in nebulae, live for millions to billions of years, and end as white dwarfs, neutron stars, or black holes depending on their mass.");
    ("sun",
     "☀️ **Our Sun**: A middle-aged yellow dwarf star that's been shining for 4.6 billion years! Every second, it converts 600 million tons of hydrogen into helium, powering all life on Earth. The Sun's core reaches 27 million°F (15 million°C). Solar activity follows an 11-year cycle monitored by NASA's Solar Dynamics Observatory.");
    ("supernova",
     "💥 **Supernovae**: The explosive death of massive stars! These cosmic explosions are so bright they can outshine entire galaxies. They create and scatter heavy elements like iron and gold throughout the universe - we are literally made of star stuff! NASA telescopes regularly discover supernovae in distant galaxies.");
    ("neutron star",
     "⚡ **Neutron Stars**: The ultra-dense remnants of massive stars! A sugar-cube sized piece would weigh 6 billion tons on Earth. They can spin 700 times per second and have magnetic fields trillions of times stronger than Earth's. Some emit radio beams (pulsars) that sweep across space like cosmic lighthouses.");
    ("white dwarf",
     "💎 **White Dwarfs**: The hot, dense cores left behind when Sun-like stars die! About the size of Earth but with the mass of the Sun. They slowly cool over billions of years, eventually becoming cold, dark objects. Our Sun will become a white dwarf in about 5 billion years.");
    ("black hole",
     "🕳️ **Black Holes**: Regions of spacetime where gravity is so strong that nothing, not even light, can escape! They form when massive stars collapse. NASA's Event Horizon Telescope captured the first image of a black hole in 2019. The supermassive black hole in our galaxy's center, Sagittarius A*, is 4 million times the Sun's mass!") ].

(** The general stellar text returned when no key matches. *)
Definition stellar_default : string :=
  "⭐ **Stars and Stellar Objects**: The universe is filled with incredible stellar phenomena! From main sequence stars like our Sun to exotic objects like neutron stars and black holes. NASA's space telescopes study these cosmic powerhouses. What stellar object interests you?".

(** [galaxy_data], in insertion order. *)
Definition galaxy_data : list (string * string) :=
  [ ("milky way",
     "🌌 **The Milky Way**: Our home galaxy containing over 100 billion stars! It's a barred spiral galaxy about 100,000 light-years across. We're located in the Orion Arm, about 26,000 light-years from the galactic center. Our entire solar system orbits the galaxy once every 225-250 million years!");
    ("andromeda galaxy",
     "🌌 **Andromeda Galaxy (M31)**: Our nearest major galactic neighbor, 2.5 million light-years away! It's approaching us at 250,000 mph and will collide with the Milky Way in about 4.5 billion years, creating a new galaxy astronomers call 'Milkomeda.' You can see it with the naked eye as a fuzzy patch!");
    ("galaxy",
     "🌌 **Galaxies**: Massive collections of stars, gas, dust, and dark matter! There are over 2 trillion galaxies in the observable universe. They come in three main types: spiral (like the Milky Way), elliptical, and irregular. NASA's Hubble and James Webb telescopes have revealed galaxies from when the universe was young!") ].

(** The general galaxy text returned when no key matches. *)
Definition galaxy_default : string :=
  "🌌 **Galaxies**: Island universes containing billions to trillions of stars! Our Milky Way is just one of countless galaxies in the universe. NASA telescopes study galaxy formation and evolution across cosmic time. Which galaxy interests you?".

(** ** Templates of the formatted answers *)

(** The f-string of [get_nasa_apod]. *)
Definition apod_message (title explanation date url : string) : string :=
  "🌟 **NASA's Astronomy Picture of the Day**: " ++ title ++ nl ++ nl
  ++ explanation ++ nl ++ nl ++ "📅 Date: " ++ date ++ nl
  ++ "🔗 You can view it at: " ++ url.

(** The f-string of [get_nasa_neo_data]. *)
Definition neo_message (element_count name min_diameter max_diameter : string)
  : string :=
  "🌌 **NASA NEO Update**: Today, there are " ++ element_count
  ++ " Near Earth Objects being tracked!" ++ nl ++ nl
  ++ "🪨 **Featured Asteroid**: " ++ name ++ nl
  ++ "📏 **Estimated Size**: " ++ min_diameter ++ " - " ++ max_diameter
  ++ " meters" ++ nl ++ nl
  ++ "⚠️ NASA continuously monitors these objects to ensure Earth's safety! All current NEOs pose no threat to our planet.".

(** The f-string of [get_spacex_launch_data]. *)
Definition spacex_message (mission_name launch_date status details : string)
  : string :=
  "🚀 **Latest SpaceX Mission**: " ++ mission_name ++ nl ++ nl
  ++ "📅 **Launch Date**: " ++ launch_date ++ nl
  ++ "🎯 **Status**: " ++ status ++ nl ++ nl
  ++ "📝 **Details**: " ++ details.

Definition spacex_default_details : string :=
  "This mission represents SpaceX continued efforts to advance space exploration and make life multiplanetary!".

(** The prompt of [get_smart_space_answer]. *)
Definition gemini_prompt (user_message : string) : string :=
  "You are VyomNetra, an expert space and astronomy chatbot. Answer this question about space, astronomy, constellations, planets, or any space-related topic with accurate, engaging information. Keep your response informative but friendly, include relevant emojis, and make it educational."
  ++ nl ++ nl ++ "User question: " ++ user_message ++ nl ++ nl
  ++ "Please provide a detailed, accurate answer about the space topic they're asking about. If it's about a constellation, include information about its stars, mythology, and how to find it. If it's about planets, include facts about their characteristics and any NASA missions. Make it interesting and educational!".

(** The text of the [except] branch of [space_chat], before the error
    details. *)
Definition apology : string :=
  "I'm having trouble connecting to space agencies right now, but here's an interesting space fact: The universe is about 13.8 billion years old and contains over 2 trillion galaxies! 🌌 Error details: ".

Definition NASA_APOD_API : string :=
  "https://api.nasa.gov/planetary/apod?api_key=DEMO_KEY".

Definition SPACE_NEWS_API : string :=
  "https://api.spacexdata.com/v4/launches/latest".

Definition neo_feed_url (today : string) : string :=
  "https://api.nasa.gov/neo/rest/v1/feed?start_date=" ++ today
  ++ "&end_date=" ++ today ++ "&api_key=DEMO_KEY".

(** ** Keyed pools *)

(** [for key, info in data.items(): if key in user_message: return info],
    then the text after the loop. *)
Fixpoint first_match (data : list (string * string)) (user_message : string)
    (default : string) : string :=
  match data with
  | [] => default
  | (key, info) :: rest =>
      if str_in key user_message then info
      else first_match rest user_message default
  end.

Definition get_constellation_info (user_message : string) : string :=
  first_match constellation_data user_message constellation_default.

Definition get_planet_info (user_message : string) : string :=
  first_match planet_data user_message planet_default.

Definition get_stellar_info (user_message : string) : string :=
  first_match stellar_data user_message stellar_default.

Definition get_galaxy_info (user_message : string) : string :=
  first_match galaxy_data user_message galaxy_default.

(** ** Topics *)

Inductive Topic : Type :=
| PictureOfDay | NearEarthObject | MarsRover | Launch | AgencyTrivia
| Constellation | Planet | Star | Galaxy | General.

Definition constellation_keywords : list string :=
  ["ursa major"; "ursa minor"; "orion"; "cassiopeia"; "andromeda";
   "constellation"; "big dipper"; "little dipper"].

Definition planet_keywords : list string :=
  ["mercury"; "venus"; "earth"; "mars"; "jupiter"; "saturn"; "uranus";
   "neptune"; "planet"].

Definition stellar_keywords : list string :=
  ["star"; "sun"; "supernova"; "neutron star"; "white dwarf"; "black hole"].

Definition galaxy_keywords : list string :=
  ["galaxy"; "milky way"; "andromeda galaxy"; "spiral galaxy"].

(** The branch the [if]/[elif] chain of [space_chat] takes. *)
Definition classify (user_message : string) : Topic :=
  if str_in "apod" user_message || str_in "picture" user_message
     || str_in "photo" user_message || str_in "image" user_message
  then PictureOfDay
  else if str_in "asteroid" user_message || str_in "neo" user_message
          || str_in "near earth" user_message
  then NearEarthObject
  else if str_in "mars" user_message || str_in "rover" user_message
          || str_in "curiosity" user_message
  then MarsRover
  else if str_in "spacex" user_message || str_in "launch" user_message
          || str_in "rocket" user_message
  then Launch
  else if str_in "isro" user_message || str_in "indian space" user_message
          || str_in "india" user_message
  then AgencyTrivia
  else if any_in constellation_keywords user_message then Constellation
  else if any_in planet_keywords user_message then Planet
  else if any_in stellar_keywords user_message then Star
  else if any_in galaxy_keywords user_message then Galaxy
  else General.

(** The JSON response of the endpoint with its HTTP status. *)
Record http_response : Type := {
  response : string;
  timestamp : string;
  status : Z
}.

(** ** The handlers *)

Section Handlers.

Context {py : PyRuntime}.
Variable w : World.

(** [requests.get(url, timeout=10)]: one outbound call, recorded. *)
Definition requests_get (url : string) : M (Z * outcome json) :=
  fun s =>
    let s' := mkEffects (url :: http_calls s) (model_calls s) (draws s)
                        (printed s) in
    match http w url with
    | ConnectionError e => (Raise e, s')
    | HttpResponse status_code body => (Ret (status_code, body), s')
    end.

(** [random.choice(seq)]: the element at an index below [len(seq)] taken
    from the next raw draw. *)
Definition random_choice (seq : list string) : M string :=
  fun s =>
    match seq with
    | [] => (Raise (Exn "IndexError" "Cannot choose from an empty sequence"), s)
    | _ :: _ =>
        (Ret (nth (random w (draws s) mod length seq) seq EmptyString),
         mkEffects (http_calls s) (model_calls s) (S (draws s)) (printed s))
    end.

(** [m.generate_content(prompt).text]: one call to the model, recorded. *)
Definition generate_content_text (m : string -> outcome string)
    (prompt : string) : M string :=
  fun s =>
    (m prompt,
     mkEffects (http_calls s) (prompt :: model_calls s) (draws s) (printed s)).

Definition print (line : string) : M unit :=
  fun s =>
    (Ret tt,
     mkEffects (http_calls s) (model_calls s) (draws s) (line :: printed s)).

Definition get_fallback_apod_info : M string := random_choice apod_facts.

Definition get_nasa_apod : M string :=
  try_except
    (resp <- requests_get NASA_APOD_API ;;
     if (fst resp =? 200)%Z then
       data <- lift (snd resp) ;;
       title <- py_get data "title" (JString "Amazing Space Image") ;;
       explanation <- py_get data "explanation"
                        (JString "A beautiful view from space!") ;;
       date <- py_get data "date" (JString "Today") ;;
       url <- py_get data "url" (JString "NASA APOD website") ;;
       ret (apod_message (fstr title) (fstr explanation) (fstr date)
                         (fstr url))
     else get_fallback_apod_info)
    (fun _ => get_fallback_apod_info).

Definition get_fallback_neo_info : M string := random_choice neo_facts.

Definition get_nasa_neo_data : M string :=
  try_except
    (let today := today w in
     let neo_url := neo_feed_url today in
     resp <- requests_get neo_url ;;
     if (fst resp =? 200)%Z then
       data <- lift (snd resp) ;;
       element_count <- py_get data "element_count" (JInt 0) ;;
       positive <- py_gt0 element_count ;;
       if positive then
         by_date <- py_get data "near_earth_objects" (JDict []) ;;
         neo_objects <- py_get by_date today (JList []) ;;
         if truthy neo_objects then
           neo <- py_item0 neo_objects ;;
           name <- py_get neo "name" (JString "Unknown asteroid") ;;
           estimated <- py_get neo "estimated_diameter" (JDict []) ;;
           diameter <- py_get estimated "meters" (JDict []) ;;
           min_diameter <- py_get diameter "estimated_diameter_min" (JInt 0) ;;
           max_diameter <- py_get diameter "estimated_diameter_max" (JInt 0) ;;
           smin <- fmt_1f min_diameter ;;
           smax <- fmt_1f max_diameter ;;
           ret (neo_message (fstr element_count) (fstr name) smin smax)
         else get_fallback_neo_info
       else get_fallback_neo_info
     else get_fallback_neo_info)
    (fun _ => get_fallback_neo_info).

Definition get_mars_rover_data : M string := random_choice mars_facts.

(** [get_spacex_launch_data]: the [try] yields the formatted text or falls
    through ([None]) to the static facts, as does its [except: pass]. *)
Definition get_spacex_launch_data : M string :=
  formatted <-
    try_except
      (resp <- requests_get SPACE_NEWS_API ;;
       if (fst resp =? 200)%Z then
         data <- lift (snd resp) ;;
         mission_name <- py_get data "name" (JString "Unknown Mission") ;;
         launch_date <- py_get data "date_utc" (JString "Unknown Date") ;;
         details <- py_get data "details" (JString "No details available") ;;
         success <- py_get data "success" (JBool false) ;;
         let status :=
           if truthy success then "✅ Successful"
           else match success with
                | JBool false => "❌ Failed"
                | _ => "⏳ Scheduled"
                end in
         ret (Some (spacex_message (fstr mission_name) (fstr launch_date)
                      status
                      (if truthy details then fstr details
                       else spacex_default_details)))
       else ret None)
      (fun _ => ret None) ;;
  match formatted with
  | Some text => ret text
  | None => random_choice spacex_facts
  end.

Definition get_isro_info : M string := random_choice isro_facts.

Definition get_random_space_fact : M string := random_choice space_facts.

Definition get_smart_space_answer (user_message : string) : M string :=
  try_except
    (match model w with
     | None => get_random_space_fact
     | Some m =>
         let prompt := gemini_prompt user_message in
         generate_content_text m prompt
     end)
    (fun e =>
       print ("Gemini AI error: " ++ exn_str e) ;;;
       get_random_space_fact).

(** The [if]/[elif] chain of [space_chat]. *)
Definition dispatch (user_message : string) : M string :=
  if str_in "apod" user_message || str_in "picture" user_message
     || str_in "photo" user_message || str_in "image" user_message
  then get_nasa_apod
  else if str_in "asteroid" user_message || str_in "neo" user_message
          || str_in "near earth" user_message
  then get_nasa_neo_data
  else if str_in "mars" user_message || str_in "rover" user_message
          || str_in "curiosity" user_message
  then get_mars_rover_data
  else if str_in "spacex" user_message || str_in "launch" user_message
          || str_in "rocket" user_message
  then get_spacex_launch_data
  else if str_in "isro" user_message || str_in "indian space" user_message
          || str_in "india" user_message
  then get_isro_info
  else if any_in constellation_keywords user_message
  then ret (get_constellation_info user_message)
  else if any_in planet_keywords user_message
  then ret (get_planet_info user_message)
  else if any_in stellar_keywords user_message
  then ret (get_stellar_info user_message)
  else if any_in galaxy_keywords user_message
  then ret (get_galaxy_info user_message)
  else get_smart_space_answer user_message.

(** The handler each topic stands for. *)
Definition answer_for (t : Topic) (user_message : string) : M string :=
  match t with
  | PictureOfDay => get_nasa_apod
  | NearEarthObject => get_nasa_neo_data
  | MarsRover => get_mars_rover_data
  | Launch => get_spacex_launch_data
  | AgencyTrivia => get_isro_info
  | Constellation => ret (get_constellation_info user_message)
  | Planet => ret (get_planet_info user_message)
  | Star => ret (get_stellar_info user_message)
  | Galaxy => ret (get_galaxy_info user_message)
  | General => get_smart_space_answer user_message
  end.

(** [space_chat]: [request_json] is what [request.get_json()] does, raise or
    return the decoded body. *)
Definition space_chat (request_json : outcome json) : M http_response :=
  try_except
    (data <- lift request_json ;;
     message <- py_get data "message" (JString "") ;;
     user_message <- py_lower message ;;
     text <- dispatch user_message ;;
     ret {| response := text; timestamp := now_iso w; status := 200 |})
    (fun e =>
       ret {| response := apology ++ exn_str e;
              timestamp := now_iso w;
              status := 200 |}).

End Handlers.

(** ** The classifier as the specification words it *)

(** The ordered keyword groups of the specification's section 4.1; the
    constellation, planet, star and galaxy groups are the lists the code
    tests. *)
Definition picture_keywords : list string :=
  ["apod"; "picture"; "photo"; "image"].

Definition neo_keywords : list string := ["asteroid"; "neo"; "near earth"].

Definition mars_keywords : list string := ["mars"; "rover"; "curiosity"].

Definition launch_keywords : list string := ["spacex"; "launch"; "rocket"].

Definition agency_keywords : list string := ["isro"; "indian space"; "india"].

Definition classification_rules : list (list string * Topic) :=
  [ (picture_keywords, PictureOfDay);
    (neo_keywords, NearEarthObject);
    (mars_keywords, MarsRover);
    (launch_keywords, Launch);
    (agency_keywords, AgencyTrivia);
    (constellation_keywords, Constellation);
    (planet_keywords, Planet);
    (stellar_keywords, Star);
    (galaxy_keywords, Galaxy) ].

(** Ordered, first match wins, else general. *)
Fixpoint first_rule (rules : list (list string * Topic)) (message : string)
  : Topic :=
  match rules with
  | [] => General
  | (keywords, topic) :: rest =>
      if any_in keywords message then topic else first_rule rest message
  end.

Definition classify_spec (message : string) : Topic :=
  first_rule classification_rules message.

(** ** Requests, a runtime and worlds to evaluate in *)

(** The body [{"message": m}] as [request.get_json()] returns it. *)
Definition chat (m : string) : outcome json :=
  Ret (JDict [("message", JString m)]).

Definition no_effects : Effects := mkEffects [] [] 0 [].

(** One decimal, round-half-even, of a binary float. *)
Definition float_fixed1 (f : spec_float) : string :=
  match f with
  | S754_zero s => if s then "-0.0" else "0.0"
  | S754_infinity s => if s then "-inf" else "inf"
  | S754_nan => "nan"
  | S754_finite s m e =>
      let tenths :=
        if (0 <=? e)%Z then (10 * Z.pos m * 2 ^ e)%Z
        else
          let d := (2 ^ (- e))%Z in
          let q := (10 * Z.pos m / d)%Z in
          let r := (10 * Z.pos m mod d)%Z in
          if (d <? 2 * r)%Z || ((d =? 2 * r)%Z && Z.odd q)
          then (q + 1)%Z else q in
      (if s then "-" else "")
      ++ str_of_Z (tenths / 10) ++ "." ++ str_of_Z (tenths mod 10)
  end.

Local Open Scope Z_scope.

(** [x * 2^e2] against [d * 10^x10]. *)
Definition compare_scaled (x e2 d x10 : Z) : comparison :=
  Z.compare (x * 2 ^ Z.max e2 0 * 10 ^ Z.max (- x10) 0)
            (d * 10 ^ Z.max x10 0 * 2 ^ Z.max (- e2) 0).

Fixpoint zeros (n : nat) : string :=
  match n with O => EmptyString | S k => String "0" (zeros k) end.

Fixpoint strip_zeros (fuel : nat) (d x : Z) : Z * Z :=
  match fuel with
  | O => (d, x)
  | S k => if (d mod 10 =? 0) && negb (d =? 0) then strip_zeros k (d / 10) (x + 1)
           else (d, x)
  end.

Section Shortest.
Variables (v lo hi e2 : Z) (even : bool) (p : Z).

Definition inside (d x : Z) : bool :=
  match compare_scaled lo e2 d x with
  | Lt => true | Eq => even | Gt => false
  end &&
  match compare_scaled hi e2 d x with
  | Gt => true | Eq => even | Lt => false
  end.

(** The [k]-digit decimals around the value, shortest first. *)
Fixpoint shortest (fuel : nat) (k : Z) : Z * Z :=
  let x := p + 1 - k in
  let q := (v * 2 ^ Z.max e2 0 * 10 ^ Z.max (- x) 0)
           / (2 ^ Z.max (- e2) 0 * 10 ^ Z.max x 0) in
  let below := inside q x in
  let above := inside (q + 1) x in
  let nearest :=
    match compare_scaled (2 * v) e2 (2 * q + 1) x with
    | Lt => q
    | Gt => q + 1
    | Eq => if Z.even q then q else q + 1
    end in
  match fuel with
  | O => (nearest, x)
  | S n =>
      if below && above then (nearest, x)
      else if below then (q, x)
      else if above then (q + 1, x)
      else shortest n (k + 1)
  end.
End Shortest.

(** The digits [d] and exponent [x] of the shortest decimal [d * 10^x]
    that reads back as the binary64 [m * 2^e]. *)
Definition float_digits (m : positive) (e : Z) : Z * Z :=
  let bits := Z.log2 (Z.pos m) + 1 in
  let e' := Z.max (-1074) (e + bits - 53) in
  let m' := if e' <=? e then Z.pos m * 2 ^ (e - e')
            else Z.pos m / 2 ^ (e' - e) in
  let v := 4 * m' in
  let hi := 4 * m' + 2 in
  let lo := if (m' =? 2 ^ 52) && (-1074 <? e') then 4 * m' - 1
            else 4 * m' - 2 in
  let e2 := e' - 2 in
  let p0 := (Z.log2 m' + e') * 1233 / 4096 - 1 in
  let reaches q := match compare_scaled v e2 1 (q + 1) with
                   | Lt => false | _ => true end in
  let p := if reaches p0
           then if reaches (p0 + 1)
                then if reaches (p0 + 2) then p0 + 3 else p0 + 2
                else p0 + 1
           else p0 in
  let '(d, x) := shortest v lo hi e2 (Z.even m') p 17 1 in
  strip_zeros 20 d x.

Definition sign_text (s : bool) : string := if s then "-"%string else ""%string.

Definition tail_of (k : nat) (ds : string) : string :=
  String.substring k (String.length ds - k) ds.

(** The digits [ds] with the decimal point after the first [decpt] of them,
    as [repr] writes a float: exponent form when [decpt] is above 16 or
    below -3. *)
Definition place_point (ds : string) (decpt : Z) : string :=
  let n := Z.of_nat (String.length ds) in
  if (16 <? decpt) || (decpt <? -3) then
    let ex := decpt - 1 in
    (String.substring 0 1 ds
     ++ (if (n =? 1)%Z then "" else "." ++ tail_of 1 ds)
     ++ "e" ++ (if (ex <? 0)%Z then "-" else "+")
     ++ (if (Z.abs ex <? 10)%Z then "0" else "") ++ str_of_Z (Z.abs ex))%string
  else if decpt <=? 0 then
    ("0." ++ zeros (Z.to_nat (- decpt)) ++ ds)%string
  else if n <=? decpt then
    (ds ++ zeros (Z.to_nat (decpt - n)) ++ ".0")%string
  else
    (String.substring 0 (Z.to_nat decpt) ds ++ "."
     ++ tail_of (Z.to_nat decpt) ds)%string.

(** [repr] of a float. *)
Definition float_repr (f : spec_float) : string :=
  match f with
  | S754_zero s => (sign_text s ++ "0.0")%string
  | S754_infinity s => (sign_text s ++ "inf")%string
  | S754_nan => "nan"%string
  | S754_finite s m e =>
      let '(d, x) := float_digits m e in
      let ds := str_of_Z d in
      (sign_text s
       ++ place_point ds (Z.of_nat (String.length ds) + x))%string
  end.

(** [float(z)]: round to nearest even at 53 bits; [None]: OverflowError. *)
Definition float_of_int (z : Z) : option Z :=
  let a := Z.abs z in
  let bits := Z.log2 a + 1 in
  if bits <=? 53 then Some z
  else
    let sh := bits - 53 in
    let q := a / 2 ^ sh in
    let r := a mod 2 ^ sh in
    let half := 2 ^ (sh - 1) in
    let q' := if (half <? r) || ((half =? r) && Z.odd q) then q + 1 else q in
    let value := q' * 2 ^ sh in
    if 2 ^ 1024 <=? value then None
    else Some (if z <? 0 then - value else value).

Definition int_fixed1 (z : Z) : option string :=
  match float_of_int z with
  | Some v => Some (str_of_Z v ++ ".0")%string
  | None => None
  end.

Local Close Scope Z_scope.

Definition quote1 : ascii := ascii_of_nat 39.
Definition quote2 : ascii := ascii_of_nat 34.
Definition backslash : ascii := ascii_of_nat 92.

Fixpoint has_char (c : ascii) (s : string) : bool :=
  match s with
  | EmptyString => false
  | String a t => Ascii.eqb a c || has_char c t
  end.

Definition hex_digit (n : nat) : ascii :=
  ascii_of_nat (if (n <? 10)%nat then 48 + n else 87 + n).

(** One character of a [str] as [repr] writes it between [q] quotes. *)
Definition char_repr (q c : ascii) : string :=
  let n := nat_of_ascii c in
  if Ascii.eqb c q || Ascii.eqb c backslash then String backslash (String c "")
  else if (n =? 9)%nat then String backslash "t"
  else if (n =? 10)%nat then String backslash "n"
  else if (n =? 13)%nat then String backslash "r"
  else if (n <? 32)%nat || (n =? 127)%nat then
    String backslash
      (String "x" (String (hex_digit (n / 16)) (String (hex_digit (n mod 16)) "")))
  else String c "".

Fixpoint chars_repr (q : ascii) (s : string) : string :=
  match s with
  | EmptyString => EmptyString
  | String c t => char_repr q c ++ chars_repr q t
  end.

(** [repr] of a [str]: single quotes, unless it holds a single and no
    double quote. *)
Definition str_repr (s : string) : string :=
  let q := if has_char quote1 s && negb (has_char quote2 s) then quote2
           else quote1 in
  String q (chars_repr q s ++ String q "").

(** [repr] of a JSON-decoded object. *)
Fixpoint json_repr (v : json) : string :=
  match v with
  | JNull => "None"
  | JBool b => if b then "True" else "False"
  | JInt z => str_of_Z z
  | JFloat f => float_repr f
  | JString s => str_repr s
  | JList l =>
      ("[" ++ (fix items (l : list json) : string :=
                 match l with
                 | [] => ""
                 | x :: rest =>
                     (json_repr x
                      ++ match rest with [] => "" | _ :: _ => ", " end
                      ++ items rest)%string
                 end) l ++ "]")%string
  | JDict d =>
      ("{" ++ (fix items (d : list (string * json)) : string :=
                 match d with
                 | [] => ""
                 | (k, x) :: rest =>
                     (str_repr k ++ ": " ++ json_repr x
                      ++ match rest with [] => "" | _ :: _ => ", " end
                      ++ items rest)%string
                 end) d ++ "}")%string
  end.

(** The runtime the examples are evaluated in.  [repr] and ['.1f'] are
    CPython's on every decoded document: shortest digits that read back for
    a float, [float(z)] with its rounding and its [OverflowError] for an
    integer, quoting and escapes for a string.  [str.lower], and the test of
    what [repr] escapes, are the ASCII ones: a character outside ASCII is
    left as it is, which is CPython's result for the characters that have no
    other lowercase form and are printable. *)
Definition ascii_runtime : PyRuntime :=
  {| str_lower := lower_ascii;
     str_lower_ascii := fun s _ => eq_refl;
     repr := json_repr;
     fixed1 := fun v =>
       match v with
       | JBool b => Some (if b then "1.0" else "0.0")
       | JInt z => int_fixed1 z
       | JFloat f => Some (float_fixed1 f)
       | _ => None
       end |}.

(** No network, no model. *)
Definition offline_world : World :=
  {| today := "2026-11-04";
     now_iso := "2026-11-04T12:00:00.000000";
     http := fun _ =>
       ConnectionError (Exn "ConnectionError" "Max retries exceeded");
     random := fun k => k;
     model := None |}.

(** Every feed answers 503; no model. *)
Definition unavailable_world : World :=
  {| today := "2026-11-04";
     now_iso := "2026-11-04T12:00:00.000000";
     http := fun _ =>
       HttpResponse 503 (Raise (Exn "JSONDecodeError" "Expecting value"));
     random := fun k => k;
     model := None |}.

(** Every feed answers 200 with [{"element_count": 0,
    "near_earth_objects": {}}]; no model. *)
Definition empty_feed_world : World :=
  {| today := "2026-11-04";
     now_iso := "2026-11-04T12:00:00.000000";
     http := fun _ =>
       HttpResponse 200
         (Ret (JDict [("element_count", JInt 0);
                      ("near_earth_objects", JDict [])]));
     random := fun k => k;
     model := None |}.

(** Every feed answers 200 with a positive count and an empty list for
    today; no model. *)
Definition empty_day_world : World :=
  {| today := "2026-11-04";
     now_iso := "2026-11-04T12:00:00.000000";
     http := fun _ =>
       HttpResponse 200
         (Ret (JDict [("element_count", JInt 7);
                      ("near_earth_objects",
                       JDict [("2026-11-04", JList [])])]));
     random := fun k => k;
     model := None |}.

(** No network; a model that answers with the prompt it was given. *)
Definition echo_world : World :=
  {| today := "2026-11-04";
     now_iso := "2026-11-04T12:00:00.000000";
     http := fun _ =>
       ConnectionError (Exn "ConnectionError" "Max retries exceeded");
     random := fun k => k;
     model := Some (fun prompt => Ret prompt) |}.

(** No network; a model whose answer has no text in it. *)
Definition mute_world : World :=
  {| today := "2026-11-04";
     now_iso := "2026-11-04T12:00:00.000000";
     http := fun _ =>
       ConnectionError (Exn "ConnectionError" "Max retries exceeded");
     random := fun k => k;
     model := Some (fun _ => Ret "") |}.

(** ** Naming pool entries and parts of [space_chat] *)

(** The text a keyed pool holds under [key]. *)
Fixpoint pool_entry (data : list (string * string)) (key : string)
  : option string :=
  match data with
  | [] => None
  | (k, info) :: rest =>
      if String.eqb k key then Some info else pool_entry rest key
  end.

(** The keys [constellation_data] lists before ['scorpio']. *)
Definition keys_before_scorpio : list string :=
  ["ursa major"; "big dipper"; "ursa minor"; "orion"; "cassiopeia";
   "andromeda"].

(** The keywords of the five rules tested before the constellation rule. *)
Definition higher_priority_keywords : list string :=
  picture_keywords ++ neo_keywords ++ mars_keywords ++ launch_keywords
  ++ agency_keywords.

(** The first two statements of the [try] block of [space_chat]: decode
    the body, take its message, lowercase it. *)
Definition read_message {py : PyRuntime} (request_json : outcome json)
  : M string :=
  data <- lift request_json ;;
  message <- py_get data "message" (JString "") ;;
  py_lower message.

(** What [jsonify] is given on either path of [space_chat], with its
    status. *)
Definition reply (w : World) (text : string) : http_response :=
  {| response := text; timestamp := now_iso w; status := 200 |}.

(** The effects of one outbound call to [url] followed by one random draw. *)
Definition after_call_and_draw (url : string) (s : Effects) : Effects :=
  mkEffects (url :: http_calls s) (model_calls s) (S (draws s)) (printed s).

(** The effects of one random draw and nothing else. *)
Definition after_draw (s : Effects) : Effects :=
  mkEffects (http_calls s) (model_calls s) (S (draws s)) (printed s).

(** [random.choice(seq)] at the draw that is next in [s]. *)
Definition drawn (w : World) (s : Effects) (seq : list string) : string :=
  nth (random w (draws s) mod length seq) seq EmptyString.

(** A JSON number equal to zero. *)
Definition is_zero (v : json) : bool :=
  match v with
  | JInt 0 => true
  | JFloat (S754_zero _) => true
  | _ => false
  end.

(** The effects of one call to the model with [prompt] and nothing else. *)
Definition after_model_call (prompt : string) (s : Effects) : Effects :=
  mkEffects (http_calls s) (prompt :: model_calls s) (draws s) (printed s).

(** The response text of a finished request ([""] had it raised). *)
Definition answer_text (o : outcome http_response * Effects) : string :=
  match fst o with
  | Ret r => response r
  | Raise _ => EmptyString
  end.

(** Membership in a list of literal texts, decided by evaluation. *)
Definition mem (t : string) (l : list string) : bool :=
  existsb (String.eqb t) l.

(** No text occurs twice in [l]. *)
Fixpoint distinct (l : list string) : bool :=
  match l with
  | [] => true
  | x :: rest => negb (mem x rest) && distinct rest
  end.

(** ** Where an answer comes from *)

(** [origin w um t text]: [text] is an answer the handler of topic [t] can
    give to the lowercased message [um] in world [w]: a formatted live
    result, a fact of the topic's pool, the keyed lookup on [um], or, for
    the general topic only, the model's own text for the prompt built from
    [um]. *)
Inductive origin (w : World) (um : string) : Topic -> string -> Prop :=
| apod_live : forall title explanation date url,
    origin w um PictureOfDay (apod_message title explanation date url)
| apod_fact : forall t, In t apod_facts -> origin w um PictureOfDay t
| neo_live : forall count name dmin dmax,
    origin w um NearEarthObject (neo_message count name dmin dmax)
| neo_fact : forall t, In t neo_facts -> origin w um NearEarthObject t
| mars_fact : forall t, In t mars_facts -> origin w um MarsRover t
| spacex_live : forall name date st details,
    origin w um Launch (spacex_message name date st details)
| spacex_fact : forall t, In t spacex_facts -> origin w um Launch t
| isro_fact : forall t, In t isro_facts -> origin w um AgencyTrivia t
| constellation_entry :
    origin w um Constellation (get_constellation_info um)
| planet_entry : origin w um Planet (get_planet_info um)
| stellar_entry : origin w um Star (get_stellar_info um)
| galaxy_entry : origin w um Galaxy (get_galaxy_info um)
| general_fact : forall t, In t space_facts -> origin w um General t
| general_model : forall m t,
    model w = Some m -> m (gemini_prompt um) = Ret t ->
    origin w um General t.

(** [c] never raises. *)
Definition total {A} (c : M A) : Prop :=
  forall s, exists a s', c s = (Ret a, s').

(** Whatever [c] returns satisfies [P]. *)
Definition ensures {A} (c : M A) (P : A -> Prop) : Prop :=
  forall s a s', c s = (Ret a, s') -> P a.

(** ** Documents, effects and start-up, for the further properties *)

(** [d.get(k, default)] on a dict. *)
Definition get_or (d : list (string * json)) (k : string) (default : json)
  : json :=
  match dict_get k d with
  | Some v => v
  | None => default
  end.

Definition is_dict (v : json) : bool :=
  match v with JDict _ => true | _ => false end.

Definition is_str (v : json) : bool :=
  match v with JString _ => true | _ => false end.

(** [v > 0] holds (and does not raise). *)
Definition is_positive (v : json) : bool :=
  match v with
  | JBool b => b
  | JInt z => (0 <? z)%Z
  | JFloat f => SFltb float_zero f
  | _ => false
  end.

(** [bool], [int] and [float]: what ['.1f'] accepts. *)
Definition is_number (v : json) : bool :=
  match v with
  | JBool _ | JInt _ | JFloat _ => true
  | _ => false
  end.

(** The effects of one outbound call to [url] and nothing else. *)
Definition after_call (url : string) (s : Effects) : Effects :=
  mkEffects (url :: http_calls s) (model_calls s) (draws s) (printed s).

(** The effects of a model call that raised: the prompt sent, the error
    line printed, one draw for the fact returned instead. *)
Definition after_failed_model_call (prompt line : string) (s : Effects)
  : Effects :=
  mkEffects (http_calls s) (prompt :: model_calls s) (S (draws s))
            (line :: printed s).

(** The three URLs the fetchers request. *)
Definition feed_urls (w : World) : list string :=
  [NASA_APOD_API; neo_feed_url (today w); SPACE_NEWS_API].

(** The topics answered by a keyed lookup. *)
Definition is_keyed (t : Topic) : bool :=
  match t with
  | Constellation | Planet | Star | Galaxy => true
  | _ => false
  end.

(** What one request may add to the effects [s]: nothing; one draw; one
    call to a feed URL, with or without a draw; one prompt; or one prompt,
    an error line and a draw. *)
Definition request_effects (w : World) (s s' : Effects) : Prop :=
  s' = s \/
  s' = after_draw s \/
  (exists url, In url (feed_urls w) /\
     (s' = after_call url s \/ s' = after_call_and_draw url s)) \/
  (exists prompt, s' = after_model_call prompt s) \/
  (exists prompt line, s' = after_failed_model_call prompt line s).

(** The feed a topic's handler calls, if it calls one. *)
Definition feed_of (w : World) (t : Topic) : option string :=
  match t with
  | PictureOfDay => Some NASA_APOD_API
  | NearEarthObject => Some (neo_feed_url (today w))
  | Launch => Some SPACE_NEWS_API
  | _ => None
  end.

(** [c] has no effect, whether it returns or raises. *)
Definition quiet {A} (c : M A) : Prop := forall s, snd (c s) = s.

(** From [s], the rest of a fetcher's [try] block [c] ends in one of three
    ways without further effect: it raises, it returns a formatted text,
    or it is the fetcher's fallback. *)
Definition settles (c : M string) (s : Effects) (live : string -> Prop)
    (fallback : M string) : Prop :=
  (exists e, c s = (Raise e, s)) \/
  (exists t, c s = (Ret t, s) /\ live t) \/
  c s = fallback s.

(** The module-level start-up of Gemini: [google_api_key] is
    [os.environ.get('GOOGLE_API_KEY')], [configure] is [genai.configure]
    and [generative_model] is [genai.GenerativeModel]; the result is the
    global [model]. *)
Definition init_model (google_api_key : option string)
    (configure : string -> outcome unit)
    (generative_model : string -> outcome (string -> outcome string))
  : M (option (string -> outcome string)) :=
  try_except
    (match google_api_key with
     | Some key =>
         if negb (String.eqb key "") then
           lift (configure key) ;;;
           m <- lift (generative_model "gemini-2.0-flash") ;;
           print "🤖 Google Gemini AI integrated successfully with your API key!" ;;;
           ret (Some m)
         else
           print "⚠️ No Google API key found, using basic responses" ;;;
           ret None
     | None =>
         print "⚠️ No Google API key found, using basic responses" ;;;
         ret None
     end)
    (fun e =>
       print ("⚠️ Gemini setup error: " ++ exn_str e) ;;;
       ret None).

(** The feeds answer 200: the picture feed with a title and a null date,
    the launch feed with an upcoming launch, the object feed with two
    objects for today; a model that raises. *)
Definition live_world : World :=
  {| today := "2026-11-04";
     now_iso := "2026-11-04T12:00:00.000000";
     http := fun url =>
       if String.eqb url NASA_APOD_API then
         HttpResponse 200
           (Ret (JDict [("title", JString "Pillars of Creation");
                        ("date", JNull)]))
       else if String.eqb url SPACE_NEWS_API then
         HttpResponse 200
           (Ret (JDict [("name", JString "Crew-5");
                        ("success", JNull);
                        ("details", JString "")]))
       else
         HttpResponse 200
           (Ret (JDict
              [("element_count", JInt 2);
               ("near_earth_objects",
                JDict [("2026-11-04",
                  JList [JDict [("name", JString "(2020 AB)");
                                ("estimated_diameter",
                                 JDict [("meters",
                                   JDict [("estimated_diameter_min", JInt 12);
                                          ("estimated_diameter_max",
                                           JFloat (S754_finite false 53 (-1)))
                                         ])])];
                         JDict [("name", JString "(2021 CD)")]])])]));
     random := fun k => k;
     model := Some (fun _ => Raise (Exn "ResourceExhausted" "429 quota")) |}.

(** The object feed answers 200 with a document that lists an object for
    today but has no [element_count]; the other feeds answer 200 with a
    JSON array. *)
Definition odd_world : World :=
  {| today := "2026-11-04";
     now_iso := "2026-11-04T12:00:00.000000";
     http := fun url =>
       if String.eqb url (neo_feed_url "2026-11-04") then
         HttpResponse 200
           (Ret (JDict
              [("near_earth_objects",
                JDict [("2026-11-04",
                        JList [JDict [("name", JString "(2020 AB)")]])])]))
       else HttpResponse 200 (Ret (JList []));
     random := fun k => k;
     model := None |}.

(** * Properties *)

(** ** Substring search *)

Lemma prefix_app (p x : string) : String.prefix p (p ++ x) = true.
Proof.
  induction p as [|c p IH]; simpl.
  - destruct x; reflexivity.
  - destruct (ascii_dec c c) as [_|n]; [exact IH | now destruct n].
Qed.

Lemma prefix_app_l (p q s : string) :
  String.prefix (p ++ q) s = true -> String.prefix p s = true.
Proof.
  revert s; induction p as [|c p IH]; intros s H.
  - destruct s; reflexivity.
  - destruct s as [|b s]; simpl in *; [discriminate|].
    destruct (ascii_dec c b); [now apply IH | discriminate].
Qed.

Lemma str_in_app_l (p q s : string) :
  str_in (p ++ q) s = true -> str_in p s = true.
Proof.
  induction s as [|b s IH]; intros H.
  - unfold str_in in *. rewrite orb_false_r in *.
    eapply prefix_app_l; eassumption.
  - change (str_in (p ++ q) (String b s))
      with (String.prefix (p ++ q) (String b s) || str_in (p ++ q) s) in H.
    change (str_in p (String b s))
      with (String.prefix p (String b s) || str_in p s).
    apply orb_true_iff in H; apply orb_true_iff.
    destruct H as [H|H]; [left; eapply prefix_app_l; eassumption|right; auto].
Qed.

Lemma prefix_nonempty (p t : string) :
  p <> EmptyString -> String.prefix p t = true -> t <> EmptyString.
Proof.
  intros Hp H ->. destruct p; [now apply Hp | discriminate].
Qed.

(** ** The monad *)

Lemma ensures_ret {A} (a : A) (P : A -> Prop) : P a -> ensures (ret a) P.
Proof. intros H s b s' E. inversion E; subst; exact H. Qed.

Lemma ensures_raise {A} (e : exn) (P : A -> Prop) : ensures (raise e) P.
Proof. intros s b s' E. discriminate E. Qed.

Lemma ensures_bind {A B} (c : M A) (k : A -> M B) (P : B -> Prop) :
  (forall a, ensures (k a) P) -> ensures (bind c k) P.
Proof.
  intros H s b s' E. unfold bind in E.
  destruct (c s) as [[a|e] s1]; [eapply H; eassumption | discriminate].
Qed.

Lemma ensures_bind_post {A B} (c : M A) (k : A -> M B) (Q : A -> Prop)
    (P : B -> Prop) :
  ensures c Q -> (forall a, Q a -> ensures (k a) P) -> ensures (bind c k) P.
Proof.
  intros Hc H s b s' E. unfold bind in E.
  destruct (c s) as [[a|e] s1] eqn:Ec; [|discriminate].
  eapply H; [eapply Hc|]; eassumption.
Qed.

Lemma ensures_try {A} (c : M A) (h : exn -> M A) (P : A -> Prop) :
  ensures c P -> (forall e, ensures (h e) P) -> ensures (try_except c h) P.
Proof.
  intros Hc Hh s b s' E. unfold try_except in E.
  destruct (c s) as [[a|e] s1] eqn:Ec.
  - inversion E; subst. eapply Hc; eassumption.
  - eapply Hh; eassumption.
Qed.

Lemma ensures_if {A} (b : bool) (c1 c2 : M A) (P : A -> Prop) :
  ensures c1 P -> ensures c2 P -> ensures (if b then c1 else c2) P.
Proof. destruct b; auto. Qed.

Lemma total_ret {A} (a : A) : total (ret a).
Proof. intros s; exists a, s; reflexivity. Qed.

Lemma total_bind {A B} (c : M A) (k : A -> M B) :
  total c -> (forall a, total (k a)) -> total (bind c k).
Proof.
  intros Hc Hk s. destruct (Hc s) as (a & s1 & E).
  unfold bind; rewrite E. apply Hk.
Qed.

Lemma total_try {A} (c : M A) (h : exn -> M A) :
  (forall e, total (h e)) -> total (try_except c h).
Proof.
  intros Hh s. unfold try_except.
  destruct (c s) as [[a|e] s1]; [now exists a, s1 | apply Hh].
Qed.

Lemma total_if {A} (b : bool) (c1 c2 : M A) :
  total c1 -> total c2 -> total (if b then c1 else c2).
Proof. destruct b; auto. Qed.

Lemma ensures_weaken {A} (c : M A) (P Q : A -> Prop) :
  ensures c P -> (forall a, P a -> Q a) -> ensures c Q.
Proof. intros H HPQ s a s' E. apply HPQ. eapply H; eassumption. Qed.


(** ** The handlers, one by one *)

Lemma nth_mod_In (seq : list string) (k : nat) :
  seq <> [] -> In (nth (k mod length seq) seq EmptyString) seq.
Proof.
  intros H. apply nth_In. apply Nat.mod_upper_bound.
  destruct seq; [now destruct H | discriminate].
Qed.

Section HandlerFacts.

Context {py : PyRuntime}.
Variable w : World.

Lemma random_choice_eq (seq : list string) (s : Effects) :
  seq <> [] ->
  random_choice w seq s =
    (Ret (nth (random w (draws s) mod length seq) seq EmptyString),
     mkEffects (http_calls s) (model_calls s) (S (draws s)) (printed s)).
Proof. destruct seq; [intros H; now destruct H | reflexivity]. Qed.

Lemma random_choice_in (seq : list string) :
  ensures (random_choice w seq) (fun t => In t seq).
Proof.
  intros s t s' E.
  assert (Hne : seq <> []) by (destruct seq; [discriminate E | discriminate]).
  rewrite (random_choice_eq _ _ Hne) in E.
  replace t with (nth (random w (draws s) mod length seq) seq EmptyString)
    by congruence.
  apply nth_mod_In; assumption.
Qed.

Lemma random_choice_total (seq : list string) :
  seq <> [] -> total (random_choice w seq).
Proof.
  intros H s. rewrite random_choice_eq by assumption. eauto.
Qed.

Lemma print_total (line : string) : total (print line).
Proof. intros s. unfold print. eauto. Qed.

Ltac step_ensures :=
  repeat first
    [ apply ensures_bind; intro
    | apply ensures_if
    | apply ensures_try; [|intro] ].

Lemma get_nasa_apod_origin (um : string) :
  ensures (get_nasa_apod w) (origin w um PictureOfDay).
Proof.
  unfold get_nasa_apod, get_fallback_apod_info. step_ensures;
    try (apply ensures_ret; constructor);
    (eapply ensures_weaken; [apply random_choice_in | apply apod_fact]).
Qed.

Lemma get_nasa_neo_data_origin (um : string) :
  ensures (get_nasa_neo_data w) (origin w um NearEarthObject).
Proof.
  unfold get_nasa_neo_data, get_fallback_neo_info. step_ensures;
    try (apply ensures_ret; constructor);
    (eapply ensures_weaken; [apply random_choice_in | apply neo_fact]).
Qed.

Lemma get_spacex_launch_data_origin (um : string) :
  ensures (get_spacex_launch_data w) (origin w um Launch).
Proof.
  unfold get_spacex_launch_data.
  apply ensures_bind_post with
    (Q := fun formatted =>
            match formatted with
            | Some text => origin w um Launch text
            | None => True
            end).
  - step_ensures; apply ensures_ret; solve [constructor | exact I].
  - intros [text|] H.
    + apply ensures_ret; exact H.
    + eapply ensures_weaken; [apply random_choice_in | apply spacex_fact].
Qed.

Lemma get_smart_space_answer_origin (um : string) :
  ensures (get_smart_space_answer w um) (origin w um General).
Proof.
  unfold get_smart_space_answer, get_random_space_fact.
  apply ensures_try.
  - destruct (model w) as [m|] eqn:Em.
    + intros s t s' E. unfold generate_content_text in E.
      injection E as Et _. eapply general_model; eassumption.
    + eapply ensures_weaken; [apply random_choice_in | apply general_fact].
  - intro e. apply ensures_bind; intros _.
    eapply ensures_weaken; [apply random_choice_in | apply general_fact].
Qed.

Lemma get_nasa_apod_total : total (get_nasa_apod w).
Proof.
  apply total_try; intros _. apply random_choice_total; discriminate.
Qed.

Lemma get_nasa_neo_data_total : total (get_nasa_neo_data w).
Proof.
  apply total_try; intros _. apply random_choice_total; discriminate.
Qed.

Lemma get_spacex_launch_data_total : total (get_spacex_launch_data w).
Proof.
  apply total_bind.
  - apply total_try; intros _; apply total_ret.
  - intros [text|]; [apply total_ret|].
    apply random_choice_total; discriminate.
Qed.

Lemma get_smart_space_answer_total (um : string) :
  total (get_smart_space_answer w um).
Proof.
  apply total_try; intros e. apply total_bind; [apply print_total|].
  intros _. apply random_choice_total; discriminate.
Qed.

(** The chain of [space_chat] calls the handler of the topic [classify]
    names. *)
Lemma dispatch_answer_for (um : string) :
  dispatch w um = answer_for w (classify um) um.
Proof.
  unfold dispatch, classify.
  repeat match goal with
         | |- context [if ?b then _ else _] => destruct b
         end; reflexivity.
Qed.

Lemma answer_for_total (t : Topic) (um : string) : total (answer_for w t um).
Proof.
  destruct t; simpl;
    first [ apply total_ret
          | apply random_choice_total; discriminate
          | apply get_nasa_apod_total
          | apply get_nasa_neo_data_total
          | apply get_spacex_launch_data_total
          | apply get_smart_space_answer_total ].
Qed.

Lemma dispatch_total (um : string) : total (dispatch w um).
Proof. rewrite dispatch_answer_for. apply answer_for_total. Qed.

Lemma answer_for_origin (t : Topic) (um : string) :
  ensures (answer_for w t um) (origin w um t).
Proof.
  destruct t; simpl.
  - apply get_nasa_apod_origin.
  - apply get_nasa_neo_data_origin.
  - eapply ensures_weaken; [apply random_choice_in | apply mars_fact].
  - apply get_spacex_launch_data_origin.
  - eapply ensures_weaken; [apply random_choice_in | apply isro_fact].
  - apply ensures_ret; constructor.
  - apply ensures_ret; constructor.
  - apply ensures_ret; constructor.
  - apply ensures_ret; constructor.
  - apply get_smart_space_answer_origin.
Qed.

(** Every answer of the chain has an origin in the topic of the message. *)
Lemma dispatch_origin (um : string) :
  ensures (dispatch w um) (origin w um (classify um)).
Proof. rewrite dispatch_answer_for. apply answer_for_origin. Qed.

End HandlerFacts.

(** ** Keyed pools *)

Lemma first_match_in (data : list (string * string)) (um default : string) :
  In (first_match data um default) (default :: map snd data).
Proof.
  induction data as [|[k info] rest IH]; simpl.
  - now left.
  - destruct (str_in k um).
    + right; now left.
    + destruct IH as [IH|IH]; [now left | right; now right].
Qed.

(** When none of the first keys occurs in the message, the scan starts
    after them. *)
Lemma first_match_skip (skipped rest : list (string * string))
    (um default : string) :
  any_in (map fst skipped) um = false ->
  first_match (skipped ++ rest) um default = first_match rest um default.
Proof.
  induction skipped as [|[k info] sk IH]; simpl; intros H.
  - reflexivity.
  - apply orb_false_iff in H. destruct H as [-> H]. now apply IH.
Qed.

Lemma any_in_app (l1 l2 : list string) (um : string) :
  any_in (l1 ++ l2) um = any_in l1 um || any_in l2 um.
Proof. apply existsb_app. Qed.

Lemma any_in_false (keys : list string) (um k : string) :
  any_in keys um = false -> In k keys -> str_in k um = false.
Proof.
  intros H Hk. destruct (str_in k um) eqn:E; [|reflexivity].
  assert (any_in keys um = true) by (apply existsb_exists; eauto).
  congruence.
Qed.

Lemma mem_false_not_In (t : string) (l : list string) :
  mem t l = false -> ~ In t l.
Proof.
  intros H Hin.
  assert (mem t l = true).
  { apply existsb_exists. exists t. split; [assumption | apply String.eqb_refl]. }
  congruence.
Qed.

Lemma all_nonempty (l : list string) (t : string) :
  mem EmptyString l = false -> In t l -> t <> EmptyString.
Proof. intros H Hin ->. exact (mem_false_not_In _ _ H Hin). Qed.

(** ** The classifier *)

Lemma any_in_cons (k : string) (keys : list string) (um : string) :
  any_in (k :: keys) um = str_in k um || any_in keys um.
Proof. reflexivity. Qed.

Lemma any_in_nil (um : string) : any_in [] um = false.
Proof. reflexivity. Qed.

Lemma classify_refines (um : string) : classify um = classify_spec um.
Proof.
  unfold classify, classify_spec, classification_rules, first_rule.
  unfold picture_keywords, neo_keywords, mars_keywords, launch_keywords,
    agency_keywords.
  rewrite !any_in_cons, !any_in_nil, !orb_false_r, !orb_assoc. reflexivity.
Qed.

Lemma str_lower_literal {py : PyRuntime} (s : string) :
  all_ascii s = true -> lower_ascii s = s -> str_lower s = s.
Proof. intros Ha Hl. rewrite str_lower_ascii by assumption. exact Hl. Qed.

(** ** [space_chat] around its [try] block *)

Section Endpoint.

Context {py : PyRuntime}.
Variable w : World.

Lemma space_chat_read (request : outcome json) (s : Effects) :
  space_chat w request s =
    match read_message request s with
    | (Ret um, s1) =>
        match dispatch w um s1 with
        | (Ret text, s2) => (Ret (reply w text), s2)
        | (Raise e, s2) => (Ret (reply w (apology ++ exn_str e)), s2)
        end
    | (Raise e, s1) => (Ret (reply w (apology ++ exn_str e)), s1)
    end.
Proof.
  unfold space_chat, read_message, try_except, bind, lift, ret, reply.
  destruct request as [data|e]; [|reflexivity].
  destruct (py_get data "message" (JString "") s) as [[message|e] s1];
    [|reflexivity].
  destruct (py_lower message s1) as [[um|e] s2]; [|reflexivity].
  destruct (dispatch w um s2) as [[text|e] s3]; reflexivity.
Qed.

Lemma read_message_chat (m : string) (s : Effects) :
  read_message (chat m) s = (Ret (str_lower m), s).
Proof. reflexivity. Qed.

(** The answer to the body [{"message": m}] is what the chain returns on
    the lowercased [m]. *)
Lemma space_chat_chat (m text : string) (s s' : Effects) :
  dispatch w (str_lower m) s = (Ret text, s') ->
  space_chat w (chat m) s = (Ret (reply w text), s').
Proof.
  intros H. rewrite space_chat_read, read_message_chat, H. reflexivity.
Qed.

Lemma apology_nonempty (e : exn) : (apology ++ exn_str e)%string <> EmptyString.
Proof. unfold apology. simpl. discriminate. Qed.

Lemma keyed_pools_nonempty :
  mem EmptyString
    ((constellation_default :: map snd constellation_data)
     ++ (planet_default :: map snd planet_data)
     ++ (stellar_default :: map snd stellar_data)
     ++ (galaxy_default :: map snd galaxy_data)) = false.
Proof. vm_compute. reflexivity. Qed.

Lemma random_pools_nonempty :
  mem EmptyString
    (apod_facts ++ neo_facts ++ mars_facts ++ spacex_facts ++ isro_facts
     ++ space_facts) = false.
Proof. vm_compute. reflexivity. Qed.

(** An empty answer can only be the model's. *)
Lemma origin_empty (um : string) (t : Topic) :
  origin w um t EmptyString ->
  exists m, model w = Some m /\ m (gemini_prompt um) = Ret EmptyString.
Proof.
  intros H.
  assert (Hr : forall x, In x (apod_facts ++ neo_facts ++ mars_facts
                 ++ spacex_facts ++ isro_facts ++ space_facts) ->
               x <> EmptyString)
    by (intro x; apply all_nonempty, random_pools_nonempty).
  assert (Hk : forall x, In x
                 ((constellation_default :: map snd constellation_data)
                  ++ (planet_default :: map snd planet_data)
                  ++ (stellar_default :: map snd stellar_data)
                  ++ (galaxy_default :: map snd galaxy_data)) ->
               x <> EmptyString)
    by (intro x; apply all_nonempty, keyed_pools_nonempty).
  remember EmptyString as text eqn:E in H.
  destruct H as
    [ a b c d | x Hx | a b c d | x Hx | x Hx | a b c d | x Hx | x Hx
    | | | | | x Hx | m x Hm Hx ].
  - unfold apod_message in E; simpl in E; discriminate E.
  - exfalso; apply (Hr x); [|exact E]. rewrite !in_app_iff; tauto.
  - unfold neo_message in E; simpl in E; discriminate E.
  - exfalso; apply (Hr x); [|exact E]. rewrite !in_app_iff; tauto.
  - exfalso; apply (Hr x); [|exact E]. rewrite !in_app_iff; tauto.
  - unfold spacex_message in E; simpl in E; discriminate E.
  - exfalso; apply (Hr x); [|exact E]. rewrite !in_app_iff; tauto.
  - exfalso; apply (Hr x); [|exact E]. rewrite !in_app_iff; tauto.
  - exfalso; apply (Hk _ (in_or_app _ _ _ (or_introl
      (first_match_in constellation_data um constellation_default))) E).
  - exfalso; refine (Hk (get_planet_info um) _ E).
    rewrite !in_app_iff. right; left. apply first_match_in.
  - exfalso; refine (Hk (get_stellar_info um) _ E).
    rewrite !in_app_iff. right; right; left. apply first_match_in.
  - exfalso; refine (Hk (get_galaxy_info um) _ E).
    rewrite !in_app_iff. right; right; right. apply first_match_in.
  - exfalso; apply (Hr x); [|exact E]. rewrite !in_app_iff; tauto.
  - exists m; split; [assumption | now rewrite <- E].
Qed.

End Endpoint.

(** * The claims *)

(** C1, as amended.  For every request, [space_chat] returns, never raises,
    and answers with status 200.  When decoding the body or its message
    raises, the answer is the apology text followed by the error's text;
    otherwise it is what the keyword chain returns on the lowercased message,
    and that text has an origin in the message's topic.  The answer is
    non-empty unless it is the Gemini model's own text and that text is
    empty. *)
Theorem space_chat_always_answers {py : PyRuntime} (w : World)
    (request : outcome json) (s : Effects) :
  exists r s',
    space_chat w request s = (Ret r, s') /\
    status r = 200%Z /\
    (forall e s1, read_message request s = (Raise e, s1) ->
       response r = (apology ++ exn_str e)%string /\ s' = s1) /\
    (forall um s1, read_message request s = (Ret um, s1) ->
       dispatch w um s1 = (Ret (response r), s') /\
       origin w um (classify um) (response r)) /\
    (response r = EmptyString ->
       exists m um, model w = Some m /\ m (gemini_prompt um) = Ret EmptyString).
Proof.
  rewrite space_chat_read.
  destruct (read_message request s) as [[um|e] s1] eqn:Er.
  - destruct (dispatch_total w um s1) as (text & s2 & Ed). rewrite Ed.
    pose proof (dispatch_origin w um s1 text s2 Ed) as Ho.
    exists (reply w text), s2. repeat split.
    + discriminate.
    + congruence.
    + injection H as <- <-. exact Ed.
    + injection H as <- <-. exact Ho.
    + simpl. intros ->. destruct (origin_empty w um _ Ho) as (m & Hm & Ht).
      exists m, um. now split.
  - exists (reply w (apology ++ exn_str e)), s1. repeat split.
    + injection H as <- <-. reflexivity.
    + congruence.
    + discriminate.
    + discriminate.
    + simpl. intros H. now apply apology_nonempty in H.
Qed.

(** C1, the claim as stated fails: with a model configured whose answer
    carries no text, the response to [{"message": "hello"}] is empty. *)
Lemma space_chat_empty_response :
  fst (space_chat (py := ascii_runtime) mute_world (chat "hello") no_effects)
  = Ret {| response := EmptyString;
           timestamp := "2026-11-04T12:00:00.000000";
           status := 200 |}.
Proof. vm_compute. reflexivity. Qed.

(** C1: a body that is not an object is answered with the apology, and a
    plain message with a fact. *)
Lemma space_chat_always_answers_witness :
  exists r s',
    space_chat (py := ascii_runtime) offline_world (Ret JNull) no_effects
      = (Ret r, s') /\
    response r
      = (apology ++ "'NoneType' object has no attribute 'get'")%string.
Proof.
  destruct (space_chat_always_answers (py := ascii_runtime) offline_world
              (Ret JNull) no_effects) as (r & s' & E & _ & Hraise & _).
  exists r, s'. split; [exact E|].
  exact (proj1 (Hraise _ _ eq_refl)).
Defined.

(** C2, as amended.  [classify] is the ordered first-match-wins scan of the
    rule list in the stated priority order.  A message containing both
    "mars" and "andromeda galaxy" is classified mars-rover whenever it holds
    no picture-of-day and no near-earth-object keyword, and a message
    containing "mars" is never classified galaxy; "tell me about mars and the
    andromeda galaxy" is classified mars-rover. *)
Theorem classify_ordered_first_match :
  (forall um, classify um = classify_spec um) /\
  (forall um,
     str_in "mars" um = true -> str_in "andromeda galaxy" um = true ->
     any_in picture_keywords um = false -> any_in neo_keywords um = false ->
     classify um = MarsRover) /\
  (forall um, str_in "mars" um = true -> classify um <> Galaxy) /\
  classify "tell me about mars and the andromeda galaxy" = MarsRover.
Proof.
  split; [exact classify_refines|]. split; [|split].
  - intros um Hm _ Hp Hn. rewrite classify_refines.
    unfold classify_spec, classification_rules, first_rule.
    rewrite Hp, Hn. unfold mars_keywords. rewrite any_in_cons, Hm.
    reflexivity.
  - intros um Hm. rewrite classify_refines.
    unfold classify_spec, classification_rules, first_rule.
    destruct (any_in picture_keywords um); [discriminate|].
    destruct (any_in neo_keywords um); [discriminate|].
    unfold mars_keywords. rewrite any_in_cons, Hm. discriminate.
  - vm_compute. reflexivity.
Qed.

(** C2, the claim as stated fails: this message contains "mars" and
    "andromeda galaxy" and is classified picture-of-day. *)
Lemma classify_mars_andromeda_photo :
  str_in "mars" "photo of mars and the andromeda galaxy" = true /\
  str_in "andromeda galaxy" "photo of mars and the andromeda galaxy" = true /\
  classify "photo of mars and the andromeda galaxy" = PictureOfDay /\
  classify "photo of mars and the andromeda galaxy" <> MarsRover.
Proof. vm_compute. repeat split; discriminate. Qed.

Lemma classify_ordered_first_match_witness :
  classify "is mars closer than the andromeda galaxy" = MarsRover.
Proof.
  apply (proj1 (proj2 classify_ordered_first_match)); vm_compute; reflexivity.
Defined.

(** ** The near-earth-object fetcher *)

Lemma drawn_in (w : World) (s : Effects) (seq : list string) :
  seq <> [] -> In (drawn w s seq) seq.
Proof. apply nth_mod_In. Qed.

Lemma neo_fact_not_formatted (fact count name dmin dmax : string) :
  In fact neo_facts -> fact <> neo_message count name dmin dmax.
Proof.
  intros [<-|[<-|[<-|[]]]] E; unfold neo_message in E; simpl in E;
    discriminate E.
Qed.

Section NeoFetcher.

Context {py : PyRuntime}.
Variable w : World.
Variable s : Effects.

Let url : string := neo_feed_url (today w).

Let fallen_back : outcome string * Effects :=
  (Ret (drawn w s neo_facts), after_call_and_draw url s).

Lemma neo_connection_error (e : exn) :
  http w url = ConnectionError e -> get_nasa_neo_data w s = fallen_back.
Proof.
  intros H. unfold get_nasa_neo_data, try_except, bind, requests_get.
  fold url. rewrite H. reflexivity.
Qed.

Lemma neo_bad_status (code : Z) (body : outcome json) :
  http w url = HttpResponse code body -> code <> 200%Z ->
  get_nasa_neo_data w s = fallen_back.
Proof.
  intros H Hc. unfold get_nasa_neo_data, try_except, bind, requests_get.
  fold url. rewrite H. cbn [fst snd].
  apply Z.eqb_neq in Hc. rewrite Hc. reflexivity.
Qed.

Lemma neo_zero_count (d : list (string * json)) (v : json) :
  http w url = HttpResponse 200 (Ret (JDict d)) ->
  dict_get "element_count" d = Some v -> is_zero v = true ->
  get_nasa_neo_data w s = fallen_back.
Proof.
  intros H Hc Hz. unfold get_nasa_neo_data, try_except, bind, requests_get.
  fold url. rewrite H. cbn [fst snd]. change (200 =? 200)%Z with true.
  cbv iota. unfold lift, py_get. rewrite Hc.
  destruct v as [|b|z|f|x|l|dd]; try discriminate Hz.
  - destruct z; try discriminate Hz. reflexivity.
  - destruct f; try discriminate Hz. reflexivity.
Qed.

Lemma neo_empty_day (d by_date : list (string * json)) :
  http w url = HttpResponse 200 (Ret (JDict d)) ->
  dict_get "near_earth_objects" d = Some (JDict by_date) ->
  dict_get (today w) by_date = Some (JList []) ->
  get_nasa_neo_data w s = fallen_back.
Proof.
  intros H H1 H2. unfold get_nasa_neo_data, try_except, bind, requests_get.
  fold url. rewrite H. cbn [fst snd]. change (200 =? 200)%Z with true.
  cbv iota. unfold lift, py_get. rewrite H1.
  destruct (dict_get "element_count" d) as [v|]; [|reflexivity].
  destruct v as [|b|z|f|x|l|dd]; try reflexivity.
  - destruct b; [|reflexivity]. unfold ret. rewrite H2. reflexivity.
  - unfold py_gt0, ret. destruct (0 <? z)%Z; [|reflexivity].
    rewrite H2. reflexivity.
  - unfold py_gt0, ret. destruct (SFltb float_zero f); [|reflexivity].
    rewrite H2. reflexivity.
Qed.

End NeoFetcher.

(** C3.  When the feed answers 200 with a document whose [element_count]
    is zero, or whose list for today is empty, the fetcher returns one of
    the static near-earth-object facts after its single call; the text is
    not the formatted update message, whatever count it would show. *)
Theorem neo_empty_result_falls_back {py : PyRuntime} (w : World) (s : Effects)
    (d : list (string * json)) :
  http w (neo_feed_url (today w)) = HttpResponse 200 (Ret (JDict d)) ->
  (exists v, dict_get "element_count" d = Some v /\ is_zero v = true) \/
  (exists by_date,
     dict_get "near_earth_objects" d = Some (JDict by_date) /\
     dict_get (today w) by_date = Some (JList [])) ->
  exists fact,
    get_nasa_neo_data w s
      = (Ret fact, after_call_and_draw (neo_feed_url (today w)) s) /\
    In fact neo_facts /\
    forall count name dmin dmax, fact <> neo_message count name dmin dmax.
Proof.
  intros H Hempty. exists (drawn w s neo_facts).
  assert (Hin : In (drawn w s neo_facts) neo_facts)
    by (apply drawn_in; discriminate).
  split; [|split; [exact Hin|]].
  - destruct Hempty as [(v & Hv & Hz)|(by_date & H1 & H2)].
    + eapply neo_zero_count; eassumption.
    + eapply neo_empty_day; eassumption.
  - intros. now apply neo_fact_not_formatted.
Qed.

Lemma neo_empty_result_falls_back_witness :
  (exists fact,
     get_nasa_neo_data (py := ascii_runtime) empty_feed_world no_effects
       = (Ret fact, after_call_and_draw (neo_feed_url "2026-11-04") no_effects)
     /\ In fact neo_facts) /\
  (exists fact,
     get_nasa_neo_data (py := ascii_runtime) empty_day_world no_effects
       = (Ret fact, after_call_and_draw (neo_feed_url "2026-11-04") no_effects)
     /\ In fact neo_facts).
Proof.
  split.
  - destruct (neo_empty_result_falls_back (py := ascii_runtime)
                empty_feed_world no_effects
                [("element_count", JInt 0); ("near_earth_objects", JDict [])]
                eq_refl
                (or_introl (ex_intro _ (JInt 0) (conj eq_refl eq_refl))))
      as (fact & E & Hin & _).
    exists fact. split; assumption.
  - destruct (neo_empty_result_falls_back (py := ascii_runtime)
                empty_day_world no_effects
                [("element_count", JInt 7);
                 ("near_earth_objects", JDict [("2026-11-04", JList [])])]
                eq_refl
                (or_intror (ex_intro _ [("2026-11-04", JList [])]
                              (conj eq_refl eq_refl))))
      as (fact & E & Hin & _).
    exists fact. split; assumption.
Defined.

(** C4.  When the outbound call raises a transport error, or answers with a
    status other than 200, the fetcher returns (it does not raise) one of
    the three near-earth-object facts; both failures give the same result,
    the fact drawn next, and exactly one call has been made. *)
Theorem neo_failure_falls_back {py : PyRuntime} (w : World) (s : Effects) :
  (exists e, http w (neo_feed_url (today w)) = ConnectionError e) \/
  (exists code body,
     http w (neo_feed_url (today w)) = HttpResponse code body /\
     code <> 200%Z) ->
  get_nasa_neo_data w s
    = (Ret (drawn w s neo_facts),
       after_call_and_draw (neo_feed_url (today w)) s) /\
  In (drawn w s neo_facts) neo_facts /\
  length neo_facts = 3 /\
  http_calls (after_call_and_draw (neo_feed_url (today w)) s)
    = neo_feed_url (today w) :: http_calls s.
Proof.
  intros H. split; [|split; [apply drawn_in; discriminate|split; reflexivity]].
  destruct H as [(e & H)|(code & body & H & Hc)].
  - eapply neo_connection_error; eassumption.
  - eapply neo_bad_status; eassumption.
Qed.

Lemma neo_failure_falls_back_witness :
  get_nasa_neo_data (py := ascii_runtime) offline_world no_effects
    = get_nasa_neo_data (py := ascii_runtime) unavailable_world no_effects.
Proof.
  destruct (neo_failure_falls_back (py := ascii_runtime) offline_world
              no_effects (or_introl (ex_intro _ _ eq_refl))) as [H1 _].
  destruct (neo_failure_falls_back (py := ascii_runtime) unavailable_world
              no_effects
              (or_intror (ex_intro _ 503%Z (ex_intro _ _
                 (conj eq_refl (proj1 (Z.eqb_neq 503 200) eq_refl))))))
    as [H2 _].
  rewrite H1, H2. reflexivity.
Defined.

(** ** The general topic *)

Section General.

Context {py : PyRuntime}.
Variable w : World.

Lemma dispatch_topic (um : string) (t : Topic) :
  classify um = t -> dispatch w um = answer_for w t um.
Proof. intros <-. apply dispatch_answer_for. Qed.

Lemma smart_answer_no_model (um : string) (s : Effects) :
  model w = None ->
  get_smart_space_answer w um s = (Ret (drawn w s space_facts), after_draw s).
Proof.
  intros H. unfold get_smart_space_answer, try_except. rewrite H. reflexivity.
Qed.

Lemma smart_answer_model_text (um : string) (s : Effects)
    (g : string -> outcome string) (t : string) :
  model w = Some g -> g (gemini_prompt um) = Ret t ->
  get_smart_space_answer w um s
    = (Ret t, after_model_call (gemini_prompt um) s).
Proof.
  intros H Ht. unfold get_smart_space_answer, try_except,
    generate_content_text. rewrite H, Ht. reflexivity.
Qed.

Lemma origin_general (um t : string) :
  origin w um General t ->
  In t space_facts \/
  exists g, model w = Some g /\ g (gemini_prompt um) = Ret t.
Proof.
  intros H. inversion H; subst; [left; assumption | right; eauto].
Qed.

(** The answer to a message of the general topic. *)
Lemma general_answer (m : string) (s : Effects) :
  classify (str_lower m) = General ->
  exists r s',
    space_chat w (chat m) s = (Ret r, s') /\
    (In (response r) space_facts \/
     exists g, model w = Some g /\
               g (gemini_prompt (str_lower m)) = Ret (response r)) /\
    (model w = None ->
       r = reply w (drawn w s space_facts) /\ s' = after_draw s /\
       In (response r) space_facts) /\
    (forall g e, model w = Some g ->
       g (gemini_prompt (str_lower m)) = Raise e ->
       In (response r) space_facts).
Proof.
  intros Hc.
  destruct (dispatch_total w (str_lower m) s) as (t & s' & Ed).
  pose proof (dispatch_origin w (str_lower m) s t s' Ed) as Ho.
  rewrite Hc in Ho. apply origin_general in Ho.
  exists (reply w t), s'. split; [now apply space_chat_chat|].
  split; [exact Ho|]. split.
  - intros Hn. rewrite (dispatch_topic _ _ Hc) in Ed. simpl in Ed.
    rewrite (smart_answer_no_model _ _ Hn) in Ed.
    assert (t = drawn w s space_facts) by congruence.
    assert (s' = after_draw s) by congruence. subst.
    repeat split. apply drawn_in; discriminate.
  - intros g e Hg He. destruct Ho as [Hin|(g' & Hg' & Ht)]; [exact Hin|].
    simpl in Ht. congruence.
Qed.

End General.




(** C8.  The empty message is of the general topic and goes to
    [get_smart_space_answer]: the response is the model's text for the
    prompt built from it, or one of the six general facts.  Without a model
    the response is the fact drawn next, and the only effect is that draw:
    no prompt is sent and no URL fetched. *)
Theorem empty_message_answer {py : PyRuntime} (w : World) (s : Effects) :
  classify (str_lower "") = General /\
  dispatch w (str_lower "") = get_smart_space_answer w "" /\
  length space_facts = 6 /\
  exists r s',
    space_chat w (chat "") s = (Ret r, s') /\
    (In (response r) space_facts \/
     exists g, model w = Some g /\ g (gemini_prompt "") = Ret (response r)) /\
    (model w = None ->
       r = reply w (drawn w s space_facts) /\ s' = after_draw s /\
       In (response r) space_facts /\
       model_calls s' = model_calls s /\ http_calls s' = http_calls s).
Proof.
  assert (Hl : str_lower "" = "")
    by (apply str_lower_literal; reflexivity).
  assert (Hc : classify (str_lower "") = General)
    by (rewrite Hl; reflexivity).
  split; [exact Hc|].
  split; [rewrite (dispatch_topic w _ _ Hc), Hl; reflexivity|].
  split; [reflexivity|].
  destruct (general_answer w "" s Hc) as (r & s' & E & Hor & Hnone & _).
  rewrite Hl in Hor.
  exists r, s'. split; [exact E|]. split; [exact Hor|].
  intros Hn. destruct (Hnone Hn) as (Hr & Hs & Hin).
  repeat split; try assumption; rewrite Hs; reflexivity.
Qed.

Lemma empty_message_answer_witness :
  exists r s',
    space_chat (py := ascii_runtime) offline_world (chat "") no_effects
      = (Ret r, s') /\
    In (response r) space_facts /\ model_calls s' = [].
Proof.
  destruct (empty_message_answer (py := ascii_runtime) offline_world
              no_effects) as (_ & _ & _ & r & s' & E & _ & Hnone).
  destruct (Hnone eq_refl) as (_ & _ & Hin & Hm & _).
  exists r, s'. split; [exact E|]. split; [exact Hin | exact Hm].
Defined.

(** ** Pools without repetition *)

Lemma distinct_NoDup (l : list string) : distinct l = true -> NoDup l.
Proof.
  induction l as [|x rest IH]; simpl; intros H.
  - constructor.
  - apply andb_true_iff in H. destruct H as [Hx Hr].
    constructor; [|now apply IH].
    apply mem_false_not_In. now apply negb_true_iff.
Qed.

(** C7.  A message classified mars-rover, or agency-trivia, is answered
    with the fact of that topic's list at the index drawn next; the lists
    hold 4 and 5 facts without repetition, so that each fact is the answer
    for exactly one index; the only effect of the request is that one draw:
    no URL is fetched and no prompt sent. *)
Theorem mars_and_agency_static_draws {py : PyRuntime} (w : World)
    (m : string) (s : Effects) :
  (classify (str_lower m) = MarsRover ->
     space_chat w (chat m) s
       = (Ret (reply w (drawn w s mars_facts)), after_draw s)) /\
  (classify (str_lower m) = AgencyTrivia ->
     space_chat w (chat m) s
       = (Ret (reply w (drawn w s isro_facts)), after_draw s)) /\
  In (drawn w s mars_facts) mars_facts /\
  In (drawn w s isro_facts) isro_facts /\
  (length mars_facts = 4 /\ NoDup mars_facts) /\
  (length isro_facts = 5 /\ NoDup isro_facts) /\
  http_calls (after_draw s) = http_calls s /\
  model_calls (after_draw s) = model_calls s.
Proof.
  split; [|split].
  - intros Hc. apply space_chat_chat.
    rewrite (dispatch_topic w _ _ Hc). reflexivity.
  - intros Hc. apply space_chat_chat.
    rewrite (dispatch_topic w _ _ Hc). reflexivity.
  - split; [apply drawn_in; discriminate|].
    split; [apply drawn_in; discriminate|].
    split; [split; [reflexivity|apply distinct_NoDup; vm_compute; reflexivity]|].
    split; [split; [reflexivity|apply distinct_NoDup; vm_compute; reflexivity]|].
    split; reflexivity.
Qed.

Lemma mars_and_agency_static_draws_witness :
  space_chat (py := ascii_runtime) echo_world (chat "Any ROVER news?")
    no_effects
    = (Ret (reply echo_world (drawn echo_world no_effects mars_facts)),
       after_draw no_effects) /\
  space_chat (py := ascii_runtime) echo_world (chat "What is ISRO?")
    no_effects
    = (Ret (reply echo_world (drawn echo_world no_effects isro_facts)),
       after_draw no_effects).
Proof.
  split.
  - destruct (mars_and_agency_static_draws (py := ascii_runtime) echo_world
                "Any ROVER news?" no_effects) as (H & _).
    apply H. vm_compute. reflexivity.
  - destruct (mars_and_agency_static_draws (py := ascii_runtime) echo_world
                "What is ISRO?" no_effects) as (_ & H & _).
    apply H. vm_compute. reflexivity.
Defined.

(** ** Keyed lookups behind the chain *)

Lemma first_match_cons (k info : string) (rest : list (string * string))
    (um default : string) :
  first_match ((k, info) :: rest) um default
    = if str_in k um then info else first_match rest um default.
Proof. reflexivity. Qed.

(** A message the chain hands to a later rule holds no keyword of the
    mars-rover rule. *)
Lemma past_mars_rule (um : string) :
  str_in "mars" um = true ->
  classify um = PictureOfDay \/ classify um = NearEarthObject \/
  classify um = MarsRover.
Proof.
  intros Hm. rewrite classify_refines.
  unfold classify_spec, classification_rules, first_rule.
  destruct (any_in picture_keywords um); [now left|].
  destruct (any_in neo_keywords um); [right; now left|].
  unfold mars_keywords. rewrite any_in_cons, Hm. right; now right.
Qed.

Lemma planet_without_mars (um : string) :
  classify um = Planet -> str_in "mars" um = false.
Proof.
  intros Hc. destruct (str_in "mars" um) eqn:E; [|reflexivity].
  destruct (past_mars_rule um E) as [H|[H|H]]; congruence.
Qed.

Lemma planet_lookup_not_mars (um text : string) :
  pool_entry planet_data "mars" = Some text ->
  str_in "mars" um = false -> get_planet_info um <> text.
Proof.
  intros Ht Hm. vm_compute in Ht. injection Ht as <-.
  unfold get_planet_info, planet_data. rewrite !first_match_cons, Hm.
  repeat match goal with
         | |- context [if ?b then _ else _] => destruct b
         end; unfold first_match, planet_default; discriminate.
Qed.

Lemma apology_not_planet_entry (x text : string) :
  pool_entry planet_data "mars" = Some text ->
  (apology ++ x)%string <> text.
Proof.
  intros Ht E. vm_compute in Ht. injection Ht as Ht. rewrite <- Ht in E.
  unfold apology in E. simpl in E. discriminate E.
Qed.

(** The Mars text of the planet pool has no origin but the model. *)
Lemma origin_planet_mars_entry {py : PyRuntime} (w : World)
    (um text : string) :
  pool_entry planet_data "mars" = Some text ->
  origin w um (classify um) text ->
  exists g, model w = Some g /\ g (gemini_prompt um) = Ret text.
Proof.
  intros Ht Ho. pose proof Ht as Hl. vm_compute in Hl. injection Hl as Hl.
  remember (classify um) as topic eqn:Hc.
  destruct Ho as
    [ a b c d | x Hx | a b c d | x Hx | x Hx | a b c d | x Hx | x Hx
    | | | | | x Hx | g x Hg Hx ];
    try (exfalso; rewrite <- Hl in Hx; revert Hx; apply mem_false_not_In;
         vm_compute; reflexivity).
  - exfalso. unfold apod_message in Hl. simpl in Hl. discriminate Hl.
  - exfalso. unfold neo_message in Hl. simpl in Hl. discriminate Hl.
  - exfalso. unfold spacex_message in Hl. simpl in Hl. discriminate Hl.
  - exfalso.
    pose proof (first_match_in constellation_data um constellation_default)
      as Hin.
    change (first_match constellation_data um constellation_default)
      with (get_constellation_info um) in Hin.
    rewrite <- Hl in Hin. revert Hin. apply mem_false_not_In.
    vm_compute. reflexivity.
  - exfalso.
    apply (planet_lookup_not_mars um (get_planet_info um) Ht
             (planet_without_mars um (eq_sym Hc))).
    reflexivity.
  - exfalso.
    pose proof (first_match_in stellar_data um stellar_default) as Hin.
    change (first_match stellar_data um stellar_default)
      with (get_stellar_info um) in Hin.
    rewrite <- Hl in Hin. revert Hin. apply mem_false_not_In.
    vm_compute. reflexivity.
  - exfalso.
    pose proof (first_match_in galaxy_data um galaxy_default) as Hin.
    change (first_match galaxy_data um galaxy_default)
      with (get_galaxy_info um) in Hin.
    rewrite <- Hl in Hin. revert Hin. apply mem_false_not_In.
    vm_compute. reflexivity.
  - exists g. split; assumption.
Qed.

(** C9.  Let [text] be the entry of [planet_data] under ['mars'].  A
    message that reaches the planet lookup, that is, is classified planet,
    does not contain "mars", and the lookup does not return [text] for it.
    Hence the endpoint returns [text] for no request, unless the Gemini
    model itself produced that very text. *)
Theorem planet_mars_entry_unreachable {py : PyRuntime} (text : string) :
  pool_entry planet_data "mars" = Some text ->
  (forall um, classify um = Planet ->
     str_in "mars" um = false /\ get_planet_info um <> text) /\
  (forall w um s,
     classify um = Planet -> dispatch w um s = (Ret (get_planet_info um), s)) /\
  (forall w request s r s',
     space_chat w request s = (Ret r, s') -> response r = text ->
     exists g um, model w = Some g /\ g (gemini_prompt um) = Ret text).
Proof.
  intros Ht. split; [|split].
  - intros um Hc. pose proof (planet_without_mars um Hc) as Hm.
    split; [exact Hm | now apply planet_lookup_not_mars].
  - intros w um s Hc. rewrite (dispatch_topic w _ _ Hc). reflexivity.
  - intros w request s r s' E Hr. rewrite space_chat_read in E.
    destruct (read_message request s) as [[um|e] s1].
    + destruct (dispatch w um s1) as [[t|e] s2] eqn:Ed.
      * assert (r = reply w t) by congruence. subst r. simpl in Hr. subst t.
        pose proof (dispatch_origin w um s1 text s2 Ed) as Ho.
        destruct (origin_planet_mars_entry w um text Ht Ho) as (g & Hg).
        exists g, um. exact Hg.
      * assert (r = reply w (apology ++ exn_str e)) by congruence. subst r.
        simpl in Hr. now apply apology_not_planet_entry in Hr.
    + assert (r = reply w (apology ++ exn_str e)) by congruence. subst r.
      simpl in Hr. now apply apology_not_planet_entry in Hr.
Qed.

Lemma planet_mars_entry_unreachable_witness :
  classify "which planet is jupiter" = Planet /\
  str_in "mars" "which planet is jupiter" = false /\
  pool_entry planet_data "mars"
    <> Some (get_planet_info "which planet is jupiter").
Proof.
  destruct (pool_entry planet_data "mars") as [text|] eqn:Ht;
    [|discriminate Ht].
  destruct (planet_mars_entry_unreachable (py := ascii_runtime) text Ht)
    as (H & _).
  destruct (H "which planet is jupiter" eq_refl) as (Hm & Hne).
  split; [reflexivity|]. split; [exact Hm|].
  intros E. apply Hne. now injection E.
Defined.

(** ** The constellation rule before the galaxy rule *)

Lemma higher_priority_absent (um : string) :
  any_in higher_priority_keywords um = false ->
  any_in picture_keywords um = false /\ any_in neo_keywords um = false /\
  any_in mars_keywords um = false /\ any_in launch_keywords um = false /\
  any_in agency_keywords um = false.
Proof.
  unfold higher_priority_keywords. rewrite !any_in_app, !orb_false_iff. tauto.
Qed.

Lemma andromeda_in (um : string) :
  str_in "andromeda galaxy" um = true -> str_in "andromeda" um = true.
Proof. apply (str_in_app_l "andromeda" " galaxy" um). Qed.

Lemma andromeda_constellation_keyword (um : string) :
  str_in "andromeda" um = true -> any_in constellation_keywords um = true.
Proof.
  intros H. apply existsb_exists. exists "andromeda". split; [|exact H].
  unfold constellation_keywords. simpl. tauto.
Qed.

Lemma galaxy_without_andromeda (um : string) :
  classify um = Galaxy -> str_in "andromeda galaxy" um = false.
Proof.
  intros Hc. destruct (str_in "andromeda galaxy" um) eqn:E; [|reflexivity].
  apply andromeda_in, andromeda_constellation_keyword in E.
  revert Hc. rewrite classify_refines.
  unfold classify_spec, classification_rules, first_rule. rewrite E.
  repeat match goal with
         | |- context [if ?b then _ else _] => destruct b
         end; discriminate.
Qed.

Lemma constellation_lookup_not_galaxy_entry (um text : string) :
  pool_entry galaxy_data "andromeda galaxy" = Some text ->
  get_constellation_info um <> text.
Proof.
  intros Ht E. vm_compute in Ht. injection Ht as Ht.
  pose proof (first_match_in constellation_data um constellation_default)
    as Hin.
  change (first_match constellation_data um constellation_default)
    with (get_constellation_info um) in Hin.
  rewrite E, <- Ht in Hin. revert Hin. apply mem_false_not_In.
  vm_compute. reflexivity.
Qed.

(** C10.  Let [text] be the entry of [galaxy_data] under
    ['andromeda galaxy'].  A message containing "andromeda galaxy" and no
    keyword of the five rules tested earlier is classified constellation,
    since it contains "andromeda"; it is answered by the constellation
    lookup, whose result is not [text].  Nor does the galaxy lookup return
    [text] on any message classified galaxy, none of which contains that
    key. *)
Theorem andromeda_galaxy_shadowed {py : PyRuntime} (text : string) :
  pool_entry galaxy_data "andromeda galaxy" = Some text ->
  (forall um,
     str_in "andromeda galaxy" um = true ->
     any_in higher_priority_keywords um = false ->
     classify um = Constellation /\
     get_constellation_info um <> text /\
     forall w s, dispatch w um s = (Ret (get_constellation_info um), s)) /\
  (forall w m s,
     str_in "andromeda galaxy" (str_lower m) = true ->
     any_in higher_priority_keywords (str_lower m) = false ->
     space_chat w (chat m) s
       = (Ret (reply w (get_constellation_info (str_lower m))), s)) /\
  (forall um, classify um = Galaxy ->
     str_in "andromeda galaxy" um = false /\ get_galaxy_info um <> text).
Proof.
  intros Ht.
  assert (Hcls : forall um,
             str_in "andromeda galaxy" um = true ->
             any_in higher_priority_keywords um = false ->
             classify um = Constellation).
  { intros um Ha Hh.
    apply higher_priority_absent in Hh.
    destruct Hh as (H1 & H2 & H3 & H4 & H5).
    apply andromeda_in, andromeda_constellation_keyword in Ha.
    rewrite classify_refines.
    unfold classify_spec, classification_rules, first_rule.
    rewrite H1, H2, H3, H4, H5, Ha. reflexivity. }
  split; [|split].
  - intros um Ha Hh. pose proof (Hcls um Ha Hh) as Hc.
    split; [exact Hc|].
    split; [now apply constellation_lookup_not_galaxy_entry|].
    intros w s. rewrite (dispatch_topic w _ _ Hc). reflexivity.
  - intros w m s Ha Hh. apply space_chat_chat.
    rewrite (dispatch_topic w _ _ (Hcls _ Ha Hh)). reflexivity.
  - intros um Hc. pose proof (galaxy_without_andromeda um Hc) as Hg.
    split; [exact Hg|].
    pose proof Ht as Hl. vm_compute in Hl. injection Hl as Hl.
    rewrite <- Hl. unfold get_galaxy_info, galaxy_data.
    rewrite !first_match_cons, Hg.
    repeat match goal with
           | |- context [if ?b then _ else _] => destruct b
           end; unfold first_match, galaxy_default; discriminate.
Qed.

Lemma andromeda_galaxy_shadowed_witness :
  classify "how far is the andromeda galaxy" = Constellation /\
  pool_entry galaxy_data "andromeda galaxy"
    <> Some (get_constellation_info "how far is the andromeda galaxy").
Proof.
  destruct (pool_entry galaxy_data "andromeda galaxy") as [text|] eqn:Ht;
    [|discriminate Ht].
  destruct (andromeda_galaxy_shadowed (py := ascii_runtime) text Ht)
    as (H & _).
  destruct (H "how far is the andromeda galaxy" eq_refl eq_refl)
    as (Hc & Hne & _).
  split; [exact Hc|]. intros E. apply Hne. now injection E.
Defined.

(** ** The two Scorpio keys *)

Lemma scorpio_lookup (um text : string) :
  pool_entry constellation_data "scorpio" = Some text ->
  any_in keys_before_scorpio um = false ->
  str_in "scorpio" um = true \/ str_in "scorpius" um = true ->
  get_constellation_info um = text.
Proof.
  intros Ht Hk Hs. vm_compute in Ht. injection Ht as <-.
  unfold keys_before_scorpio in Hk.
  rewrite !any_in_cons, any_in_nil, !orb_false_iff in Hk.
  destruct Hk as (H1 & H2 & H3 & H4 & H5 & H6 & _).
  unfold get_constellation_info, constellation_data.
  rewrite !first_match_cons, H1, H2, H3, H4, H5, H6.
  destruct (str_in "scorpio" um); [reflexivity|].
  destruct Hs as [Hs|Hs]; [discriminate Hs|]. rewrite Hs. reflexivity.
Qed.

(** C6, as amended.  The keys ['scorpio'] and ['scorpius'] of
    [constellation_data] hold the same text.  For two messages that are both
    classified constellation and contain none of the keys listed before
    them in the pool, one containing "scorpio" and the other "scorpius", the
    dispatcher returns that same text. *)
Theorem scorpio_scorpius_same_text {py : PyRuntime} (text : string) :
  pool_entry constellation_data "scorpio" = Some text ->
  pool_entry constellation_data "scorpius" = Some text /\
  forall w m1 m2 s1 s2,
    classify (str_lower m1) = Constellation ->
    classify (str_lower m2) = Constellation ->
    any_in keys_before_scorpio (str_lower m1) = false ->
    any_in keys_before_scorpio (str_lower m2) = false ->
    str_in "scorpio" (str_lower m1) = true ->
    str_in "scorpius" (str_lower m2) = true ->
    space_chat w (chat m1) s1 = (Ret (reply w text), s1) /\
    space_chat w (chat m2) s2 = (Ret (reply w text), s2).
Proof.
  intros Ht. split.
  - pose proof Ht as Hl. vm_compute in Hl. injection Hl as <-.
    vm_compute. reflexivity.
  - intros w m1 m2 s1 s2 Hc1 Hc2 Hk1 Hk2 Hs1 Hs2. split.
    + apply space_chat_chat. rewrite (dispatch_topic w _ _ Hc1). simpl.
      rewrite (scorpio_lookup _ text Ht Hk1 (or_introl Hs1)). reflexivity.
    + apply space_chat_chat. rewrite (dispatch_topic w _ _ Hc2). simpl.
      rewrite (scorpio_lookup _ text Ht Hk2 (or_intror Hs2)). reflexivity.
Qed.

(** C6, the claim as stated fails.  "tell me about scorpio" and "tell me
    about scorpius" hold no keyword of the chain and go to the general
    topic: with a model that echoes its prompt the two responses differ.
    Without a model, "scorpiorion" (it contains "orion") is answered from
    the constellation pool and "scorpiusrion" with a general fact. *)
Lemma scorpio_scorpius_differ :
  (classify "tell me about scorpio" = General /\
   classify "tell me about scorpius" = General /\
   answer_text (space_chat (py := ascii_runtime) echo_world
                  (chat "tell me about scorpio") no_effects)
   <> answer_text (space_chat (py := ascii_runtime) echo_world
                     (chat "tell me about scorpius") no_effects)) /\
  answer_text (space_chat (py := ascii_runtime) offline_world
                 (chat ("" ++ "scorpio" ++ "rion")) no_effects)
  <> answer_text (space_chat (py := ascii_runtime) offline_world
                    (chat ("" ++ "scorpius" ++ "rion")) no_effects).
Proof.
  split; [split; [|split]|].
  - vm_compute. reflexivity.
  - vm_compute. reflexivity.
  - apply String.eqb_neq. vm_compute. reflexivity.
  - apply String.eqb_neq. vm_compute. reflexivity.
Qed.

Lemma scorpio_scorpius_same_text_witness :
  space_chat (py := ascii_runtime) offline_world
    (chat "Scorpio constellation") no_effects
  = space_chat (py := ascii_runtime) offline_world
      (chat "Scorpius constellation") no_effects.
Proof.
  destruct (pool_entry constellation_data "scorpio") as [text|] eqn:Ht;
    [|discriminate Ht].
  destruct (scorpio_scorpius_same_text (py := ascii_runtime) text Ht)
    as (_ & H).
  destruct (H offline_world "Scorpio constellation" "Scorpius constellation"
              no_effects no_effects eq_refl eq_refl eq_refl eq_refl eq_refl
              eq_refl) as (H1 & H2).
  rewrite H1, H2. reflexivity.
Defined.

(** * Further properties of the handlers *)

(** ** Operations without effect *)

Lemma py_get_dict (d : list (string * json)) (k : string) (default : json)
    (s : Effects) :
  py_get (JDict d) k default s = (Ret (get_or d k default), s).
Proof. unfold py_get, get_or. destruct (dict_get k d); reflexivity. Qed.

Lemma py_get_not_dict (v : json) (k : string) (default : json) (s : Effects) :
  is_dict v = false ->
  py_get v k default s
    = (Raise (Exn "AttributeError"
               ("'" ++ type_name v ++ "' object has no attribute 'get'")), s).
Proof. destruct v; try reflexivity. discriminate. Qed.

Lemma quiet_ret {A} (a : A) : quiet (ret a).
Proof. intros s; reflexivity. Qed.

Lemma quiet_lift {A} (o : outcome A) : quiet (lift o).
Proof. intros s; reflexivity. Qed.

Lemma quiet_py_get (v : json) (k : string) (default : json) :
  quiet (py_get v k default).
Proof.
  intros s. destruct v; try reflexivity.
  unfold py_get. destruct (dict_get k d); reflexivity.
Qed.

Lemma quiet_py_gt0 (v : json) : quiet (py_gt0 v).
Proof. intros s. destruct v; reflexivity. Qed.

Lemma quiet_py_item0 (v : json) : quiet (py_item0 v).
Proof.
  intros s. destruct v as [| | | |x|l|]; try reflexivity.
  - destruct x; reflexivity.
  - destruct l; reflexivity.
Qed.

Lemma quiet_fmt_1f {py : PyRuntime} (v : json) : quiet (fmt_1f v).
Proof.
  intros s. destruct v; try reflexivity;
    unfold fmt_1f; destruct (fixed1 _); reflexivity.
Qed.

Lemma settles_bind {A} (q : M A) (k : A -> M string) (s : Effects)
    (live : string -> Prop) (fallback : M string) :
  quiet q -> (forall a, settles (k a) s live fallback) ->
  settles (bind q k) s live fallback.
Proof.
  intros Hq Hk. unfold settles, bind. pose proof (Hq s) as Hs.
  destruct (q s) as [[a|e] s1]; simpl in Hs; subst s1.
  - apply Hk.
  - left. now exists e.
Qed.

Lemma settles_if (b : bool) (c1 c2 : M string) (s : Effects)
    (live : string -> Prop) (fallback : M string) :
  settles c1 s live fallback -> settles c2 s live fallback ->
  settles (if b then c1 else c2) s live fallback.
Proof. destruct b; auto. Qed.

Lemma settles_ret (t : string) (s : Effects) (live : string -> Prop)
    (fallback : M string) :
  live t -> settles (ret t) s live fallback.
Proof. intros H. right; left. exists t. now split. Qed.

Lemma settles_fallback (s : Effects) (live : string -> Prop)
    (fallback : M string) :
  settles fallback s live fallback.
Proof. right; right. reflexivity. Qed.

(** ** The picture-of-the-day fetcher *)

(** X1.  When the picture feed answers 200 with a JSON object, the fetcher
    returns the formatted message built from [title], [explanation],
    [date] and [url], after its single call and without a random draw.  A
    missing field shows its default text; a field present with [null]
    shows "None", not the default. *)
Theorem apod_live_message {py : PyRuntime} (w : World) (s : Effects)
    (d : list (string * json)) :
  http w NASA_APOD_API = HttpResponse 200 (Ret (JDict d)) ->
  get_nasa_apod w s
    = (Ret (apod_message
              (fstr (get_or d "title" (JString "Amazing Space Image")))
              (fstr (get_or d "explanation"
                       (JString "A beautiful view from space!")))
              (fstr (get_or d "date" (JString "Today")))
              (fstr (get_or d "url" (JString "NASA APOD website")))),
       after_call NASA_APOD_API s) /\
  (forall k default,
     dict_get k d = None -> fstr (get_or d k (JString default)) = default) /\
  (forall k default,
     dict_get k d = Some JNull ->
     fstr (get_or d k (JString default)) = "None").
Proof.
  intros H. split; [|split].
  - unfold get_nasa_apod, try_except, bind, requests_get.
    rewrite H. cbn [fst snd]. change (200 =? 200)%Z with true. cbv iota.
    unfold lift. rewrite !py_get_dict. reflexivity.
  - intros k default Hk. unfold get_or. rewrite Hk. reflexivity.
  - intros k default Hk. unfold get_or. rewrite Hk. reflexivity.
Qed.

Lemma apod_live_message_witness :
  fst (get_nasa_apod (py := ascii_runtime) live_world no_effects)
  = Ret (apod_message "Pillars of Creation" "A beautiful view from space!"
           "None" "NASA APOD website").
Proof.
  destruct (apod_live_message (py := ascii_runtime) live_world no_effects
              [("title", JString "Pillars of Creation"); ("date", JNull)]
              eq_refl) as (H & _).
  rewrite H. reflexivity.
Defined.

(** X2.  In every other case (the call raises, the status is not 200, the
    body does not decode, or it decodes to something that is not an object)
    the fetcher returns the fact of [apod_facts] drawn next, after its
    single call; it does not raise. *)
Theorem apod_fallback {py : PyRuntime} (w : World) (s : Effects) :
  (forall d, http w NASA_APOD_API <> HttpResponse 200 (Ret (JDict d))) ->
  get_nasa_apod w s
    = (Ret (drawn w s apod_facts), after_call_and_draw NASA_APOD_API s) /\
  In (drawn w s apod_facts) apod_facts.
Proof.
  intros H. split; [|apply drawn_in; discriminate].
  unfold get_nasa_apod, try_except, bind, requests_get.
  destruct (http w NASA_APOD_API) as [e|code body] eqn:E; [reflexivity|].
  cbn [fst snd]. destruct (code =? 200)%Z eqn:Ec; [|reflexivity].
  apply Z.eqb_eq in Ec. subst code.
  destruct body as [v|e]; [|reflexivity].
  destruct v; try reflexivity. now destruct (H d).
Qed.

Lemma apod_fallback_witness :
  get_nasa_apod (py := ascii_runtime) odd_world no_effects
  = (Ret (drawn odd_world no_effects apod_facts),
     after_call_and_draw NASA_APOD_API no_effects).
Proof.
  destruct (apod_fallback (py := ascii_runtime) odd_world no_effects) as (H & _).
  - intros d E. discriminate E.
  - exact H.
Defined.

(** ** The launch fetcher *)

(** X3.  When the launch feed answers 200 with a JSON object, the fetcher
    returns the formatted message after its single call and without a
    random draw.  The status shown is "Successful" when [success] is
    truthy, "Failed" when it is [false] or missing, and "Scheduled"
    otherwise ([null], for one); [details] that are [null] or empty are
    replaced by the stock sentence. *)
Theorem spacex_live_message {py : PyRuntime} (w : World) (s : Effects)
    (d : list (string * json)) :
  http w SPACE_NEWS_API = HttpResponse 200 (Ret (JDict d)) ->
  let success := get_or d "success" (JBool false) in
  let details := get_or d "details" (JString "No details available") in
  exists status_text details_text,
    get_spacex_launch_data w s
      = (Ret (spacex_message
                (fstr (get_or d "name" (JString "Unknown Mission")))
                (fstr (get_or d "date_utc" (JString "Unknown Date")))
                status_text details_text),
         after_call SPACE_NEWS_API s) /\
    (truthy success = true -> status_text = "✅ Successful") /\
    (success = JBool false -> status_text = "❌ Failed") /\
    (truthy success = false -> success <> JBool false ->
       status_text = "⏳ Scheduled") /\
    (truthy details = true -> details_text = fstr details) /\
    (truthy details = false -> details_text = spacex_default_details).
Proof.
  intros H success details.
  exists (if truthy success then "✅ Successful"
          else match success with
               | JBool false => "❌ Failed"
               | _ => "⏳ Scheduled"
               end),
         (if truthy details then fstr details else spacex_default_details).
  split.
  - unfold get_spacex_launch_data, try_except, bind, requests_get.
    rewrite H. cbn [fst snd]. change (200 =? 200)%Z with true. cbv iota.
    unfold lift. rewrite !py_get_dict. reflexivity.
  - clearbody success details. repeat split.
    + intros ->. reflexivity.
    + intros ->. reflexivity.
    + intros Ht Hne. rewrite Ht.
      destruct success as [|b| | | | |]; try reflexivity.
      destruct b; [discriminate Ht | now destruct Hne].
    + intros ->. reflexivity.
    + intros ->. reflexivity.
Qed.

Lemma spacex_live_message_witness :
  fst (get_spacex_launch_data (py := ascii_runtime) live_world no_effects)
  = Ret (spacex_message "Crew-5" "Unknown Date" "⏳ Scheduled"
           spacex_default_details).
Proof.
  destruct (spacex_live_message (py := ascii_runtime) live_world no_effects
              [("name", JString "Crew-5"); ("success", JNull);
               ("details", JString "")] eq_refl)
    as (st & det & H & _ & _ & Hst & _ & Hdet).
  rewrite H, (Hst eq_refl ltac:(discriminate)), (Hdet eq_refl). reflexivity.
Defined.

(** X4.  In every other case (the call raises, the status is not 200, the
    body does not decode, or it decodes to something that is not an object)
    the fetcher returns the fact of [spacex_facts] drawn next, after its
    single call; it does not raise. *)
Theorem spacex_fallback {py : PyRuntime} (w : World) (s : Effects) :
  (forall d, http w SPACE_NEWS_API <> HttpResponse 200 (Ret (JDict d))) ->
  get_spacex_launch_data w s
    = (Ret (drawn w s spacex_facts), after_call_and_draw SPACE_NEWS_API s) /\
  In (drawn w s spacex_facts) spacex_facts.
Proof.
  intros H. split; [|apply drawn_in; discriminate].
  unfold get_spacex_launch_data, try_except, bind, requests_get.
  destruct (http w SPACE_NEWS_API) as [e|code body] eqn:E; [reflexivity|].
  cbn [fst snd]. destruct (code =? 200)%Z eqn:Ec; [|reflexivity].
  apply Z.eqb_eq in Ec. subst code.
  destruct body as [v|e]; [|reflexivity].
  destruct v; try reflexivity. now destruct (H d).
Qed.

Lemma spacex_fallback_witness :
  get_spacex_launch_data (py := ascii_runtime) unavailable_world no_effects
  = (Ret (drawn unavailable_world no_effects spacex_facts),
     after_call_and_draw SPACE_NEWS_API no_effects).
Proof.
  destruct (spacex_fallback (py := ascii_runtime) unavailable_world
              no_effects) as (H & _).
  - intros d E. discriminate E.
  - exact H.
Defined.

(** ** The near-earth-object fetcher, beyond its fallback *)

Lemma py_gt0_positive (v : json) (s : Effects) :
  is_positive v = true -> py_gt0 v s = (Ret true, s).
Proof.
  destruct v; simpl; try discriminate; intros H; unfold py_gt0, ret;
    now rewrite ?H.
Qed.

Lemma fmt_1f_number {py : PyRuntime} (v : json) (t : string) (s : Effects) :
  is_number v = true -> fixed1 v = Some t -> fmt_1f v s = (Ret t, s).
Proof.
  destruct v; simpl; try discriminate; intros _ H; unfold fmt_1f;
    now rewrite H.
Qed.

(** A fetcher of the shape [try: get, then a block without effect; except:
    fallback] makes one call and ends with a formatted text or in its
    fallback. *)
Lemma fetch_settles (w : World) (url : string)
    (k : Z * outcome json -> M string) (live : string -> Prop)
    (fallback : M string) (s : Effects) :
  total fallback ->
  (forall resp, settles (k resp) (after_call url s) live fallback) ->
  try_except (bind (requests_get w url) k) (fun _ => fallback) s
    = fallback (after_call url s) \/
  exists t,
    live t /\
    try_except (bind (requests_get w url) k) (fun _ => fallback) s
      = (Ret t, after_call url s).
Proof.
  intros Htot Hk. unfold try_except, bind, requests_get.
  destruct (http w url) as [e|code body]; [now left|].
  fold (after_call url s).
  destruct (Hk (code, body)) as [(e & He)|[(t & Ht & Hl)|Hf]].
  - rewrite He. now left.
  - rewrite Ht. right. now exists t.
  - rewrite Hf. left.
    destruct (Htot (after_call url s)) as (t & s2 & E). now rewrite E.
Qed.

(** X5.  Let the object feed answer 200 with an object whose
    [element_count] is positive and whose list for today starts with an
    object; let that object's [estimated_diameter], and the [meters] in it,
    each be an object or missing (then read as empty), and let
    [estimated_diameter_min] and [estimated_diameter_max] each be a number
    or missing (then zero) that ['.1f'] formats without overflow.  Then the
    fetcher returns the formatted message after its single call and without
    a random draw: it shows the count, the first object's [name] ("Unknown
    asteroid" when missing) and the two diameters with one decimal.  The
    other objects of the list are not looked at. *)
Theorem neo_live_message {py : PyRuntime} (w : World) (s : Effects)
    (d by_date neo est meters : list (string * json)) (rest : list json)
    (dmin dmax : string) :
  http w (neo_feed_url (today w)) = HttpResponse 200 (Ret (JDict d)) ->
  is_positive (get_or d "element_count" (JInt 0)) = true ->
  get_or d "near_earth_objects" (JDict []) = JDict by_date ->
  get_or by_date (today w) (JList []) = JList (JDict neo :: rest) ->
  get_or neo "estimated_diameter" (JDict []) = JDict est ->
  get_or est "meters" (JDict []) = JDict meters ->
  is_number (get_or meters "estimated_diameter_min" (JInt 0)) = true ->
  is_number (get_or meters "estimated_diameter_max" (JInt 0)) = true ->
  fixed1 (get_or meters "estimated_diameter_min" (JInt 0)) = Some dmin ->
  fixed1 (get_or meters "estimated_diameter_max" (JInt 0)) = Some dmax ->
  get_nasa_neo_data w s
    = (Ret (neo_message
              (fstr (get_or d "element_count" (JInt 0)))
              (fstr (get_or neo "name" (JString "Unknown asteroid")))
              dmin dmax),
       after_call (neo_feed_url (today w)) s).
Proof.
  intros H Hpos Hby Hday Hest Hmeters Hn1 Hn2 Hf1 Hf2.
  unfold get_nasa_neo_data, try_except, bind, requests_get.
  rewrite H. cbn [fst snd]. change (200 =? 200)%Z with true. cbv iota.
  unfold lift. rewrite py_get_dict, (py_gt0_positive _ _ Hpos).
  rewrite py_get_dict, Hby, py_get_dict, Hday.
  cbn [truthy py_item0]. unfold ret at 1.
  rewrite py_get_dict, py_get_dict, Hest, py_get_dict, Hmeters.
  rewrite !py_get_dict.
  rewrite (fmt_1f_number _ _ _ Hn1 Hf1), (fmt_1f_number _ _ _ Hn2 Hf2).
  reflexivity.
Qed.

Lemma neo_live_message_witness :
  fst (get_nasa_neo_data (py := ascii_runtime) live_world no_effects)
  = Ret (neo_message "2" "(2020 AB)" "12.0" "26.5").
Proof.
  rewrite (neo_live_message (py := ascii_runtime) live_world no_effects
             _ _ _ _ _ _ "12.0" "26.5" eq_refl eq_refl eq_refl eq_refl
             eq_refl eq_refl eq_refl eq_refl eq_refl eq_refl).
  reflexivity.
Defined.

(** X6.  Whatever the object feed does, the fetcher makes exactly one call,
    to the feed URL with today's date as start and as end date, and then
    either returns the fact of [neo_facts] drawn next or returns a formatted
    message without drawing; it never raises. *)
Theorem neo_one_call_fact_or_message {py : PyRuntime} (w : World)
    (s : Effects) :
  get_nasa_neo_data w s
    = (Ret (drawn w s neo_facts),
       after_call_and_draw (neo_feed_url (today w)) s) \/
  exists count name dmin dmax,
    get_nasa_neo_data w s
      = (Ret (neo_message count name dmin dmax),
         after_call (neo_feed_url (today w)) s).
Proof.
  unfold get_nasa_neo_data. cbv zeta.
  match goal with
  | |- try_except (bind (requests_get w ?url) ?k) (fun _ => ?fb) s = _ \/ _ =>
      destruct (fetch_settles w url k
                  (fun t => exists c n a b, t = neo_message c n a b) fb s)
        as [Hf|(t & (c & n & a & b & ->) & Ht)]
  end.
  - intros s0. apply random_choice_total. discriminate.
  - intros resp.
    repeat first
      [ apply settles_fallback
      | apply settles_if
      | apply settles_ret; eauto
      | apply settles_bind;
        [ first [ apply quiet_lift | apply quiet_py_get | apply quiet_py_gt0
                | apply quiet_py_item0 | apply quiet_fmt_1f ]
        | intro ] ].
  - left. rewrite Hf. reflexivity.
  - right. exists c, n, a, b. exact Ht.
Qed.

(** X7.  A 200 answer that cannot be used falls back to the fact of
    [neo_facts] drawn next: a body that does not decode, a body that is not
    an object, an [element_count] that is missing, not a number or not
    positive (even when objects are listed), or no entry, or an empty one,
    for today's date. *)
Theorem neo_unusable_document_falls_back {py : PyRuntime} (w : World)
    (s : Effects) (body : outcome json) :
  http w (neo_feed_url (today w)) = HttpResponse 200 body ->
  (exists e, body = Raise e) \/
  (exists v, body = Ret v /\ is_dict v = false) \/
  (exists d, body = Ret (JDict d) /\
     is_positive (get_or d "element_count" (JInt 0)) = false) \/
  (exists d by_date, body = Ret (JDict d) /\
     get_or d "near_earth_objects" (JDict []) = JDict by_date /\
     truthy (get_or by_date (today w) (JList [])) = false) ->
  get_nasa_neo_data w s
    = (Ret (drawn w s neo_facts),
       after_call_and_draw (neo_feed_url (today w)) s).
Proof.
  intros H Hbad.
  unfold get_nasa_neo_data, try_except, bind, requests_get.
  rewrite H. cbn [fst snd]. change (200 =? 200)%Z with true. cbv iota.
  unfold lift.
  destruct Hbad as [(e & ->)|[(v & -> & Hv)|[(d & -> & Hc)|
                    (d & by_date & -> & Hby & Hday)]]].
  - reflexivity.
  - rewrite (py_get_not_dict _ _ _ _ Hv). reflexivity.
  - rewrite py_get_dict.
    destruct (get_or d "element_count" (JInt 0)) as [|b|z|f|x|l|dd];
      try reflexivity; simpl in Hc; unfold py_gt0, ret; rewrite Hc;
      reflexivity.
  - rewrite py_get_dict.
    destruct (get_or d "element_count" (JInt 0)) as [|b|z|f|x|l|dd];
      try reflexivity; unfold py_gt0, ret;
      match goal with
      | |- context [if ?c then _ else _] => destruct c; [|reflexivity]
      end;
      rewrite py_get_dict, Hby, py_get_dict, Hday; reflexivity.
Qed.

Lemma neo_unusable_document_falls_back_witness :
  get_nasa_neo_data (py := ascii_runtime) odd_world no_effects
  = (Ret (drawn odd_world no_effects neo_facts),
     after_call_and_draw (neo_feed_url "2026-11-04") no_effects).
Proof.
  exact (neo_unusable_document_falls_back (py := ascii_runtime) odd_world
           no_effects _ eq_refl
           (or_intror (or_intror (or_introl
              (ex_intro _ _ (conj eq_refl eq_refl)))))).
Defined.

(** ** The keyed lookups *)

Lemma str_in_here (p x : string) : str_in p (p ++ x) = true.
Proof.
  destruct p as [|c p].
  - destruct x; reflexivity.
  - change (String.prefix (String c p) (String c p ++ x)
            || str_in (String c p) (p ++ x) = true).
    now rewrite prefix_app.
Qed.

Lemma str_in_later (p a s : string) :
  str_in p s = true -> str_in p (a ++ s) = true.
Proof.
  intros H. induction a as [|c a IH]; [exact H|].
  change (String.prefix p (String c (a ++ s)) || str_in p (a ++ s) = true).
  rewrite IH. apply orb_true_r.
Qed.

Lemma prefix_str_in_r (p q s : string) :
  String.prefix (p ++ q) s = true -> str_in q s = true.
Proof.
  revert s. induction p as [|c p IH]; intros s H.
  - destruct s; simpl in *; rewrite H; reflexivity.
  - destruct s as [|b s]; simpl in H; [discriminate|].
    destruct (ascii_dec c b); [|discriminate].
    change (String.prefix q (String b s) || str_in q s = true).
    rewrite (IH s H). apply orb_true_r.
Qed.

Lemma str_in_app_r (p q s : string) :
  str_in (p ++ q) s = true -> str_in q s = true.
Proof.
  induction s as [|b s IH]; intros H.
  - unfold str_in in H. rewrite orb_false_r in H.
    eapply prefix_str_in_r; eassumption.
  - change (String.prefix (p ++ q) (String b s) || str_in (p ++ q) s = true)
      in H.
    apply orb_true_iff in H. destruct H as [H|H].
    + eapply prefix_str_in_r; eassumption.
    + change (String.prefix q (String b s) || str_in q s = true).
      rewrite (IH H). apply orb_true_r.
Qed.

Lemma first_match_default (data : list (string * string))
    (um default : string) :
  any_in (map fst data) um = false -> first_match data um default = default.
Proof.
  intros H. rewrite <- (app_nil_r data), first_match_skip by assumption.
  reflexivity.
Qed.

Lemma first_match_entry (data : list (string * string)) (um default : string) :
  any_in (map fst data) um = true ->
  In (first_match data um default) (map snd data).
Proof.
  induction data as [|[k info] rest IH]; simpl; intros H; [discriminate|].
  destruct (str_in k um); [now left|]. right. now apply IH.
Qed.

Lemma first_match_first_key (pre post : list (string * string))
    (k info um default : string) :
  any_in (map fst pre) um = false -> str_in k um = true ->
  first_match (pre ++ (k, info) :: post) um default = info.
Proof.
  intros Hpre Hk. rewrite first_match_skip by assumption.
  rewrite first_match_cons, Hk. reflexivity.
Qed.

(** X8.  In each keyed pool the first key, in the order the pool lists
    them, that occurs in the message decides the answer: an entry is
    returned whenever its key occurs and no key listed before it does,
    whatever keys listed after it occur as well. *)
Theorem keyed_lookup_first_key_wins (pre post : list (string * string))
    (k info um : string) :
  any_in (map fst pre) um = false -> str_in k um = true ->
  (constellation_data = pre ++ (k, info) :: post ->
     get_constellation_info um = info) /\
  (planet_data = pre ++ (k, info) :: post -> get_planet_info um = info) /\
  (stellar_data = pre ++ (k, info) :: post -> get_stellar_info um = info) /\
  (galaxy_data = pre ++ (k, info) :: post -> get_galaxy_info um = info).
Proof.
  intros Hpre Hk.
  unfold get_constellation_info, get_planet_info, get_stellar_info,
    get_galaxy_info.
  repeat split; intros ->; now apply first_match_first_key.
Qed.

Lemma keyed_lookup_first_key_wins_witness :
  Some (get_constellation_info "is the big dipper near orion")
  = pool_entry constellation_data "big dipper".
Proof.
  destruct (keyed_lookup_first_key_wins
              (firstn 1 constellation_data) (skipn 2 constellation_data)
              "big dipper" (snd (nth 1 constellation_data ("", "")))
              "is the big dipper near orion" eq_refl eq_refl) as (H & _).
  rewrite (H eq_refl). reflexivity.
Defined.

(** X9.  A keyed lookup returns its pool's general text exactly when no key
    of the pool occurs in the message; otherwise it returns an entry of the
    pool. *)
Theorem keyed_lookup_default_iff_no_key (um : string) :
  (get_constellation_info um = constellation_default <->
     any_in (map fst constellation_data) um = false) /\
  (get_planet_info um = planet_default <->
     any_in (map fst planet_data) um = false) /\
  (get_stellar_info um = stellar_default <->
     any_in (map fst stellar_data) um = false) /\
  (get_galaxy_info um = galaxy_default <->
     any_in (map fst galaxy_data) um = false).
Proof.
  assert (H : forall data default,
             mem default (map snd data) = false ->
             (first_match data um default = default <->
              any_in (map fst data) um = false)).
  { intros data default Hd. split; [|apply first_match_default].
    intros E. destruct (any_in (map fst data) um) eqn:Ea; [|reflexivity].
    exfalso. apply (mem_false_not_In _ _ Hd).
    rewrite <- E. now apply first_match_entry. }
  repeat split; try (apply H; vm_compute; reflexivity);
    apply first_match_default.
Qed.

(** X10.  The stellar lookup never returns its ['neutron star'] entry: the
    key ['star'] is listed first and occurs in every message in which
    "neutron star" occurs, so such a message gets the entry of ['star']. *)
Theorem stellar_neutron_star_entry_dead (text : string) :
  pool_entry stellar_data "neutron star" = Some text ->
  forall um,
    get_stellar_info um <> text /\
    (str_in "neutron star" um = true ->
     Some (get_stellar_info um) = pool_entry stellar_data "star").
Proof.
  intros Ht um. vm_compute in Ht. injection Ht as <-.
  unfold get_stellar_info, stellar_data. rewrite !first_match_cons.
  destruct (str_in "star" um) eqn:Es.
  - split; [discriminate | reflexivity].
  - assert (Hn : str_in "neutron star" um = false).
    { destruct (str_in "neutron star" um) eqn:En; [|reflexivity].
      apply (str_in_app_r "neutron " "star") in En. congruence. }
    rewrite Hn. split; [|discriminate].
    repeat match goal with
           | |- context [if ?b then _ else _] => destruct b
           end; unfold first_match, stellar_default; discriminate.
Qed.

Lemma stellar_neutron_star_entry_dead_witness :
  Some (get_stellar_info "what is a neutron star")
  = pool_entry stellar_data "star".
Proof.
  destruct (pool_entry stellar_data "neutron star") as [text|] eqn:Ht;
    [|discriminate Ht].
  destruct (stellar_neutron_star_entry_dead text Ht "what is a neutron star")
    as (_ & H).
  exact (H eq_refl).
Defined.

(** ** Whole requests *)

Lemma quiet_bind {A B} (c : M A) (k : A -> M B) :
  quiet c -> (forall a, quiet (k a)) -> quiet (bind c k).
Proof.
  intros Hc Hk s. unfold bind. pose proof (Hc s) as Hs.
  destruct (c s) as [[a|e] s1]; simpl in Hs; subst s1; [apply Hk|reflexivity].
Qed.

Lemma quiet_py_lower {py : PyRuntime} (v : json) : quiet (py_lower v).
Proof. intros s. destruct v; reflexivity. Qed.

Lemma quiet_read_message {py : PyRuntime} (request : outcome json) :
  quiet (read_message request).
Proof.
  unfold read_message. apply quiet_bind; [apply quiet_lift|intros data].
  apply quiet_bind; [apply quiet_py_get|intros v]. apply quiet_py_lower.
Qed.

(** X11.  For a message classified constellation, planet, star or galaxy
    the response text depends on the message alone: in every world and from
    every state the request returns that text and has no effect at all (no
    call, no prompt, no draw). *)
Theorem keyed_topics_answer_without_effects {py : PyRuntime} (m : string) :
  is_keyed (classify (str_lower m)) = true ->
  exists text,
    In text [get_constellation_info (str_lower m);
             get_planet_info (str_lower m);
             get_stellar_info (str_lower m);
             get_galaxy_info (str_lower m)] /\
    forall w s, space_chat w (chat m) s = (Ret (reply w text), s).
Proof.
  intros Hk. destruct (classify (str_lower m)) eqn:Hc; try discriminate Hk.
  - exists (get_constellation_info (str_lower m)). split; [simpl; tauto|].
    intros w s. apply space_chat_chat.
    rewrite (dispatch_topic w _ _ Hc). reflexivity.
  - exists (get_planet_info (str_lower m)). split; [simpl; tauto|].
    intros w s. apply space_chat_chat.
    rewrite (dispatch_topic w _ _ Hc). reflexivity.
  - exists (get_stellar_info (str_lower m)). split; [simpl; tauto|].
    intros w s. apply space_chat_chat.
    rewrite (dispatch_topic w _ _ Hc). reflexivity.
  - exists (get_galaxy_info (str_lower m)). split; [simpl; tauto|].
    intros w s. apply space_chat_chat.
    rewrite (dispatch_topic w _ _ Hc). reflexivity.
Qed.

Lemma keyed_topics_answer_without_effects_witness :
  exists text,
    space_chat (py := ascii_runtime) live_world (chat "What is Saturn?")
      no_effects = (Ret (reply live_world text), no_effects) /\
    space_chat (py := ascii_runtime) offline_world (chat "What is Saturn?")
      no_effects = (Ret (reply offline_world text), no_effects).
Proof.
  destruct (keyed_topics_answer_without_effects (py := ascii_runtime)
              "What is Saturn?" eq_refl) as (text & _ & H).
  exists text. split; apply H.
Defined.

(** X12.  How [space_chat] reads its body.  When [get_json] raises, when
    the body is not an object, or when its message is not a string, the
    response is the apology followed by the error's text, with status 200
    and no effect.  A body without a message is handled as the empty
    message, and the other fields of a body are ignored. *)
Theorem space_chat_reads_body {py : PyRuntime} (w : World) (s : Effects) :
  (forall e,
     space_chat w (Raise e) s = (Ret (reply w (apology ++ exn_str e)), s)) /\
  (forall v, is_dict v = false ->
     space_chat w (Ret v) s
       = (Ret (reply w (apology ++ "'" ++ type_name v
                        ++ "' object has no attribute 'get'")), s)) /\
  (forall d v, dict_get "message" d = Some v -> is_str v = false ->
     space_chat w (Ret (JDict d)) s
       = (Ret (reply w (apology ++ "'" ++ type_name v
                        ++ "' object has no attribute 'lower'")), s)) /\
  (forall d, dict_get "message" d = None ->
     space_chat w (Ret (JDict d)) s = space_chat w (chat "") s) /\
  (forall d m, dict_get "message" d = Some (JString m) ->
     space_chat w (Ret (JDict d)) s = space_chat w (chat m) s).
Proof.
  split; [|split; [|split; [|split]]].
  - intros e. rewrite space_chat_read. reflexivity.
  - intros v Hv. rewrite space_chat_read. unfold read_message, bind, lift.
    rewrite (py_get_not_dict _ _ _ _ Hv). reflexivity.
  - intros d v Hd Hv. rewrite space_chat_read.
    unfold read_message, bind, lift, py_get. rewrite Hd. unfold ret.
    destruct v; try reflexivity. discriminate Hv.
  - intros d Hd. rewrite !space_chat_read.
    unfold read_message, bind, lift, py_get. rewrite Hd. reflexivity.
  - intros d m Hd. rewrite !space_chat_read.
    unfold read_message, bind, lift, py_get. rewrite Hd. reflexivity.
Qed.

Lemma space_chat_reads_body_witness :
  answer_text (space_chat (py := ascii_runtime) offline_world
                 (Ret (JDict [("message", JInt 42)])) no_effects)
  = (apology ++ "'int' object has no attribute 'lower'")%string.
Proof.
  destruct (space_chat_reads_body (py := ascii_runtime) offline_world
              no_effects) as (_ & _ & H & _).
  unfold answer_text.
  rewrite (H [("message", JInt 42)] (JInt 42) eq_refl eq_refl).
  reflexivity.
Defined.

Section EffectsOfARequest.

Context {py : PyRuntime}.
Variable w : World.

Lemma apod_effects (s : Effects) :
  snd (get_nasa_apod w s) = after_call NASA_APOD_API s \/
  snd (get_nasa_apod w s) = after_call_and_draw NASA_APOD_API s.
Proof.
  unfold get_nasa_apod.
  match goal with
  | |- snd (try_except (bind (requests_get w ?url) ?k) (fun _ => ?fb) s) = _
       \/ _ =>
      destruct (fetch_settles w url k (fun _ => True) fb s)
        as [Hf|(t & _ & Ht)]
  end.
  - intros s0. apply random_choice_total. discriminate.
  - intros resp.
    repeat first
      [ apply settles_fallback
      | apply settles_if
      | apply settles_ret; exact I
      | apply settles_bind;
        [ first [ apply quiet_lift | apply quiet_py_get ] | intro ] ].
  - right. rewrite Hf. reflexivity.
  - left. rewrite Ht. reflexivity.
Qed.

Lemma neo_effects (s : Effects) :
  snd (get_nasa_neo_data w s) = after_call (neo_feed_url (today w)) s \/
  snd (get_nasa_neo_data w s)
    = after_call_and_draw (neo_feed_url (today w)) s.
Proof.
  unfold get_nasa_neo_data. cbv zeta.
  match goal with
  | |- snd (try_except (bind (requests_get w ?url) ?k) (fun _ => ?fb) s) = _
       \/ _ =>
      destruct (fetch_settles w url k (fun _ => True) fb s)
        as [Hf|(t & _ & Ht)]
  end.
  - intros s0. apply random_choice_total. discriminate.
  - intros resp.
    repeat first
      [ apply settles_fallback
      | apply settles_if
      | apply settles_ret; exact I
      | apply settles_bind;
        [ first [ apply quiet_lift | apply quiet_py_get | apply quiet_py_gt0
                | apply quiet_py_item0 | apply quiet_fmt_1f ]
        | intro ] ].
  - right. rewrite Hf. reflexivity.
  - left. rewrite Ht. reflexivity.
Qed.

Lemma spacex_effects (s : Effects) :
  snd (get_spacex_launch_data w s) = after_call SPACE_NEWS_API s \/
  snd (get_spacex_launch_data w s) = after_call_and_draw SPACE_NEWS_API s.
Proof.
  unfold get_spacex_launch_data, try_except, bind, requests_get.
  destruct (http w SPACE_NEWS_API) as [e|code body]; [now right|].
  cbn [fst snd]. destruct (code =? 200)%Z; [|now right].
  destruct body as [v|e]; [|now right].
  destruct v; try (now right).
  left. unfold lift. rewrite !py_get_dict. reflexivity.
Qed.

Lemma smart_answer_model_error (um : string) (s : Effects)
    (g : string -> outcome string) (e : exn) :
  model w = Some g -> g (gemini_prompt um) = Raise e ->
  get_smart_space_answer w um s
    = (Ret (drawn w s space_facts),
       after_failed_model_call (gemini_prompt um)
         ("Gemini AI error: " ++ exn_str e) s).
Proof.
  intros H He. unfold get_smart_space_answer, try_except,
    generate_content_text. rewrite H, He. reflexivity.
Qed.

Lemma dispatch_effects (um : string) (s : Effects) :
  request_effects w s (snd (dispatch w um s)).
Proof.
  assert (Hurl : forall url s',
             In url (feed_urls w) ->
             s' = after_call url s \/ s' = after_call_and_draw url s ->
             request_effects w s s').
  { intros url s' Hin H. right; right; left. exists url. now split. }
  rewrite dispatch_answer_for. destruct (classify um); simpl answer_for.
  - apply (Hurl NASA_APOD_API); [simpl; tauto | apply apod_effects].
  - apply (Hurl (neo_feed_url (today w))); [simpl; tauto | apply neo_effects].
  - right; left. reflexivity.
  - apply (Hurl SPACE_NEWS_API); [simpl; tauto | apply spacex_effects].
  - right; left. reflexivity.
  - now left.
  - now left.
  - now left.
  - now left.
  - destruct (model w) as [g|] eqn:Hm.
    + destruct (g (gemini_prompt um)) as [t|e] eqn:Hg.
      * rewrite (smart_answer_model_text w um s g t Hm Hg).
        right; right; right; left. now exists (gemini_prompt um).
      * rewrite (smart_answer_model_error um s g e Hm Hg).
        right; right; right; right.
        exists (gemini_prompt um), ("Gemini AI error: " ++ exn_str e)%string.
        reflexivity.
    + rewrite (smart_answer_no_model w um s Hm). right; now left.
Qed.

End EffectsOfARequest.

(** X13.  One request does at most one thing to the outside: its effects
    are none, or one random draw, or one call to one of the three feed URLs
    with or without a draw, or one prompt to the model, or one prompt with
    an error line and a draw.  In particular it never issues more than one
    outbound request (feed or model) and never takes more than one draw. *)
Theorem one_effect_per_request {py : PyRuntime} (w : World)
    (request : outcome json) (s : Effects) :
  request_effects w s (snd (space_chat w request s)) /\
  length (http_calls (snd (space_chat w request s)))
  + length (model_calls (snd (space_chat w request s)))
  <= S (length (http_calls s) + length (model_calls s)) /\
  draws (snd (space_chat w request s)) <= S (draws s).
Proof.
  assert (H : request_effects w s (snd (space_chat w request s))).
  { rewrite space_chat_read. pose proof (quiet_read_message request s) as Hq.
    destruct (read_message request s) as [[um|e] s1]; simpl in Hq; subst s1.
    - pose proof (dispatch_effects w um s) as Hd.
      destruct (dispatch w um s) as [[t|e] s2]; exact Hd.
    - now left. }
  split; [exact H|].
  destruct H as [->|[->|[(url & _ & [->| ->])|[(p & ->)|(p & l & ->)]]]];
    simpl; lia.
Qed.

(** ** The general topic with a model *)

Lemma prompt_holds_message (um : string) :
  str_in um (gemini_prompt um) = true.
Proof.
  unfold gemini_prompt.
  do 4 apply str_in_later. apply str_in_here.
Qed.

(** X14.  With a model configured, a message of the general topic sends
    exactly one prompt, the fixed template around the lowercased message.
    If the model answers, the response is its text as it is and nothing is
    drawn; if the call raises, the error is printed and the response is the
    general fact drawn next. *)
Theorem general_topic_with_model {py : PyRuntime} (w : World) (m : string)
    (s : Effects) (g : string -> outcome string) :
  classify (str_lower m) = General -> model w = Some g ->
  let prompt := gemini_prompt (str_lower m) in
  str_in (str_lower m) prompt = true /\
  (forall t, g prompt = Ret t ->
     space_chat w (chat m) s = (Ret (reply w t), after_model_call prompt s)) /\
  (forall e, g prompt = Raise e ->
     space_chat w (chat m) s
       = (Ret (reply w (drawn w s space_facts)),
          after_failed_model_call prompt ("Gemini AI error: " ++ exn_str e)
            s) /\
     In (drawn w s space_facts) space_facts).
Proof.
  intros Hc Hm prompt. split; [apply prompt_holds_message|]. split.
  - intros t Ht. apply space_chat_chat.
    rewrite (dispatch_topic w _ _ Hc). simpl answer_for.
    exact (smart_answer_model_text w _ s g t Hm Ht).
  - intros e He. split; [|apply drawn_in; discriminate].
    apply space_chat_chat.
    rewrite (dispatch_topic w _ _ Hc). simpl answer_for.
    exact (smart_answer_model_error w _ s g e Hm He).
Qed.

Lemma general_topic_with_model_witness :
  space_chat (py := ascii_runtime) live_world (chat "Why is the sky dark?")
    no_effects
  = (Ret (reply live_world (drawn live_world no_effects space_facts)),
     after_failed_model_call (gemini_prompt "why is the sky dark?")
       "Gemini AI error: 429 quota" no_effects).
Proof.
  destruct (general_topic_with_model (py := ascii_runtime) live_world
              "Why is the sky dark?" no_effects _ eq_refl eq_refl)
    as (_ & _ & H).
  destruct (H (Exn "ResourceExhausted" "429 quota") eq_refl) as (E & _).
  rewrite E. reflexivity.
Defined.

(** ** Letter case *)

(** X15.  The endpoint does not see the letter case of an ASCII message:
    two ASCII messages that differ only in case get the same result (same
    response, same effects). *)
Theorem ascii_case_is_ignored {py : PyRuntime} (w : World) (m1 m2 : string)
    (s : Effects) :
  all_ascii m1 = true -> all_ascii m2 = true ->
  lower_ascii m1 = lower_ascii m2 ->
  space_chat w (chat m1) s = space_chat w (chat m2) s.
Proof.
  intros H1 H2 H. rewrite !space_chat_read, !read_message_chat.
  rewrite (str_lower_ascii m1 H1), (str_lower_ascii m2 H2), H. reflexivity.
Qed.

Lemma ascii_case_is_ignored_witness :
  space_chat (py := ascii_runtime) offline_world (chat "What is ORION?")
    no_effects
  = space_chat (py := ascii_runtime) offline_world (chat "what is orion?")
      no_effects.
Proof.
  exact (ascii_case_is_ignored (py := ascii_runtime) offline_world
           "What is ORION?" "what is orion?" no_effects eq_refl eq_refl
           eq_refl).
Defined.

(** ** Start-up *)

(** X16.  The start-up never raises and prints exactly one line.  The
    model is left unset when [GOOGLE_API_KEY] is absent or empty, and when
    configuring or constructing the model raises (the error's text is
    printed); it is set exactly when the key is non-empty and both steps
    succeed. *)
Theorem init_model_outcome (google_api_key : option string)
    (configure : string -> outcome unit)
    (generative_model : string -> outcome (string -> outcome string))
    (s : Effects) :
  exists m line,
    init_model google_api_key configure generative_model s
      = (Ret m,
         mkEffects (http_calls s) (model_calls s) (draws s)
                   (line :: printed s)) /\
    (google_api_key = None \/ google_api_key = Some EmptyString ->
       m = None /\
       line = "⚠️ No Google API key found, using basic responses") /\
    (forall key e, google_api_key = Some key -> key <> EmptyString ->
       configure key = Raise e \/
       (configure key = Ret tt /\
        generative_model "gemini-2.0-flash" = Raise e) ->
       m = None /\ line = ("⚠️ Gemini setup error: " ++ exn_str e)%string) /\
    (forall key g, google_api_key = Some key -> key <> EmptyString ->
       configure key = Ret tt ->
       generative_model "gemini-2.0-flash" = Ret g ->
       m = Some g).
Proof.
  unfold init_model, try_except, bind, lift, print, ret.
  destruct google_api_key as [key|].
  - destruct (String.eqb key "") eqn:Ek; simpl negb; cbv iota.
    + apply String.eqb_eq in Ek. subst key.
      eexists; eexists. split; [reflexivity|]. split; [|split].
      * intros _. split; reflexivity.
      * intros key e Hk Hne. injection Hk as <-. now destruct Hne.
      * intros key g Hk Hne. injection Hk as <-. now destruct Hne.
    + apply String.eqb_neq in Ek.
      destruct (configure key) as [[]|e1] eqn:Ec.
      * destruct (generative_model "gemini-2.0-flash") as [g|e2] eqn:Eg.
        -- eexists; eexists. split; [reflexivity|]. split; [|split].
           ++ intros [H|H]; [discriminate H|].
              injection H as ->. now destruct Ek.
           ++ intros k e Hk _ [H|[_ H]]; injection Hk as <-; congruence.
           ++ intros k g' Hk _ _ H. injection Hk as <-. congruence.
        -- eexists; eexists. split; [reflexivity|]. split; [|split].
           ++ intros [H|H]; [discriminate H|].
              injection H as ->. now destruct Ek.
           ++ intros k e Hk _ [H|[_ H]]; injection Hk as <-;
                [congruence|].
              assert (e = e2) by congruence. subst e. split; reflexivity.
           ++ intros k g' Hk _ _ H. injection Hk as <-. congruence.
      * eexists; eexists. split; [reflexivity|]. split; [|split].
        -- intros [H|H]; [discriminate H|].
           injection H as ->. now destruct Ek.
        -- intros k e Hk _ [H|[H _]]; injection Hk as <-;
             [|congruence].
           assert (e = e1) by congruence. subst e. split; reflexivity.
        -- intros k g' Hk _ H. injection Hk as <-. congruence.
  - eexists; eexists. split; [reflexivity|]. split; [|split].
    + intros _. split; reflexivity.
    + intros key e Hk. discriminate Hk.
    + intros key g Hk. discriminate Hk.
Qed.

Lemma init_model_outcome_witness :
  fst (init_model (Some "") (fun _ => Ret tt)
         (fun _ => Ret (fun prompt => Ret prompt)) no_effects)
  = Ret None.
Proof.
  destruct (init_model_outcome (Some "") (fun _ => Ret tt)
              (fun _ => Ret (fun prompt => Ret prompt)) no_effects)
    as (m & line & E & H & _).
  rewrite E. destruct (H (or_intror eq_refl)) as (-> & _). reflexivity.
Defined.

(** ** Which topic calls out *)

Lemma space_chat_effects_are_dispatch {py : PyRuntime} (w : World)
    (m : string) (s : Effects) :
  snd (space_chat w (chat m) s) = snd (dispatch w (str_lower m) s).
Proof.
  rewrite space_chat_read, read_message_chat.
  destruct (dispatch w (str_lower m) s) as [[t|e] s2]; reflexivity.
Qed.

(** X17.  Which topic reaches which peer.  A picture-of-day, near-earth-
    object or launch message makes exactly one call, to its own feed URL; a
    message of any other topic makes no call; and only a message of the
    general topic can prompt the model. *)
Theorem calls_by_topic {py : PyRuntime} (w : World) (m : string)
    (s : Effects) :
  let s' := snd (space_chat w (chat m) s) in
  let topic := classify (str_lower m) in
  http_calls s'
    = match feed_of w topic with
      | Some url => url :: http_calls s
      | None => http_calls s
      end /\
  (topic <> General -> model_calls s' = model_calls s).
Proof.
  intros s' topic. subst s'. rewrite space_chat_effects_are_dispatch.
  rewrite dispatch_answer_for. fold topic.
  destruct topic eqn:Ht; simpl answer_for; simpl feed_of.
  - destruct (apod_effects w s) as [E|E]; rewrite E; split; reflexivity.
  - destruct (neo_effects w s) as [E|E]; rewrite E; split; reflexivity.
  - split; reflexivity.
  - destruct (spacex_effects w s) as [E|E]; rewrite E; split; reflexivity.
  - split; reflexivity.
  - split; reflexivity.
  - split; reflexivity.
  - split; reflexivity.
  - split; reflexivity.
  - split; [|intros H; now destruct H].
    destruct (model w) as [g|] eqn:Hm.
    + destruct (g (gemini_prompt (str_lower m))) as [t|e] eqn:Hg.
      * now rewrite (smart_answer_model_text w _ s g t Hm Hg).
      * now rewrite (smart_answer_model_error w _ s g e Hm Hg).
    + now rewrite (smart_answer_no_model w _ s Hm).
Qed.

Lemma calls_by_topic_witness :
  http_calls (snd (space_chat (py := ascii_runtime) echo_world
                     (chat "Next rocket launch?") no_effects))
    = [SPACE_NEWS_API] /\
  model_calls (snd (space_chat (py := ascii_runtime) echo_world
                      (chat "Next rocket launch?") no_effects)) = [].
Proof.
  destruct (calls_by_topic (py := ascii_runtime) echo_world
              "Next rocket launch?" no_effects) as (H1 & H2).
  split; [exact H1|]. apply H2. discriminate.
Defined.
